(** * Safe update and delete: optimistic concurrency guard for PostGraphile

    A shallow embedding of [src/safe-update-and-delete-plugin.ts] and the
    properties of its two hooks: the input-type hook that adds the required
    timestamp field, and the resolver wrapper that checks the timestamp under
    a row lock before the wrapped mutation runs.

    JavaScript objects used as dictionaries ([input], [tags], [fields]) are
    [gmap string _]; exceptions are a completion type; the resolver wrapper
    runs in a state-and-exception monad whose state is the trace of database
    queries issued and of calls to the wrapped resolver. *)

From stdpp Require Import base option list gmap strings.
From Stdlib Require Import ZArith Lia DecimalString DecimalNat.

Local Open Scope Z_scope.
Local Open Scope stdpp_scope.

(** ** JavaScript values and completions *)

Inductive JsValue :=
  | JsUndefined
  | JsNull
  | JsBoolean (b : bool)
  | JsNumber (z : Z)
  | JsString (s : string)
  | JsDatetime (microseconds : Z).

#[global] Instance JsValue_eq_dec : EqDecision JsValue.
Proof. solve_decision. Defined.

(** [!!v]: a Datetime travels as a non-empty string, hence is truthy. *)
Definition truthy (v : JsValue) : bool :=
  match v with
  | JsUndefined | JsNull => false
  | JsBoolean b => b
  | JsNumber z => negb (z =? 0)
  | JsString s => negb (bool_decide (s = EmptyString))
  | JsDatetime _ => true
  end.

(** [o[k]] on an object used as a dictionary. *)
Definition js_get (o : gmap string JsValue) (k : string) : JsValue :=
  default JsUndefined (o !! k).

Inductive exn :=
  | JsError (message : string)
  | JsTypeError (message : string)
  | HostFailure (message : string).

#[global] Instance exn_eq_dec : EqDecision exn.
Proof. solve_decision. Defined.

Inductive completion (A : Type) :=
  | Normal (a : A)
  | Throw (e : exn).
Arguments Normal {A} a.
Arguments Throw {A} e.

#[global] Instance completion_ret : MRet completion := @Normal.
#[global] Instance completion_bind : MBind completion := fun A B f c =>
  match c with
  | Normal a => f a
  | Throw e => Throw e
  end.

#[global] Instance completion_fmap : FMap completion := fun A B f c =>
  match c with
  | Normal a => Normal (f a)
  | Throw e => Throw e
  end.

(** Reading a property of [undefined]. *)
Definition read_of {A} (property : string) (o : option A) : completion A :=
  match o with
  | Some a => Normal a
  | None =>
      Throw (JsTypeError ("Cannot read property '" +:+ property +:+ "' of undefined"))
  end.

(** ** pg-sql2: queries as flat lists of nodes *)

Inductive SQLNode :=
  | RAW (text : string)
  | IDENTIFIER (names : list string)
  | VALUE (value : JsValue).

Abbreviation SQLQuery := (list SQLNode).

Definition sql_identifier (names : list string) : SQLQuery := [IDENTIFIER names].
Definition sql_value (v : JsValue) : SQLQuery := [VALUE v].

(** A tagged template: [strings] has one element more than [values]; an
    empty text piece adds no node, an embedded query is spliced in. *)
Fixpoint sql_query (strings : list string) (values : list SQLQuery) : SQLQuery :=
  match strings with
  | [] => []
  | text :: strings' =>
      (if bool_decide (text = EmptyString) then [] else [RAW text]) ++
      match values with
      | [] => sql_query strings' []
      | value :: values' => value ++ sql_query strings' values'
      end
  end.

Definition sql_fragment := sql_query.

Fixpoint sql_join (items : list SQLQuery) (separator : string) : SQLQuery :=
  match items with
  | [] => []
  | [item] => item
  | item :: items' => item ++ RAW separator :: sql_join items' separator
  end.

Definition dquote : string := String (Ascii.ascii_of_nat 34) EmptyString.

Fixpoint double_quotes (s : string) : string :=
  match s with
  | EmptyString => EmptyString
  | String c s' =>
      if bool_decide (c = Ascii.ascii_of_nat 34)
      then String c (String c (double_quotes s'))
      else String c (double_quotes s')
  end.

Definition escapeSqlIdentifier (str : string) : string :=
  dquote +:+ double_quotes str +:+ dquote.

Fixpoint join_dot (parts : list string) : string :=
  match parts with
  | [] => EmptyString
  | [p] => p
  | p :: parts' => p +:+ "." +:+ join_dot parts'
  end.

Record QueryConfig := { text : string; values : list JsValue }.

#[global] Instance QueryConfig_eq_dec : EqDecision QueryConfig.
Proof. solve_decision. Defined.

(** Decimal numeral of a count, as in a template literal. *)
Definition decimal (n : nat) : string :=
  NilEmpty.string_of_uint (Nat.to_uint n).

(** [compile_from n items]: text and values of [items] when [n] values have
    been pushed so far; a value becomes the placeholder [$k], [k] its
    1-based position in the values array. *)
Fixpoint compile_from (n : nat) (items : SQLQuery) : string * list JsValue :=
  match items with
  | [] => (EmptyString, [])
  | RAW t :: items' =>
      let '(s, vs) := compile_from n items' in (t +:+ s, vs)
  | IDENTIFIER names :: items' =>
      let '(s, vs) := compile_from n items' in
      (join_dot (escapeSqlIdentifier <$> names) +:+ s, vs)
  | VALUE v :: items' =>
      let '(s, vs) := compile_from (S n) items' in
      ("$" +:+ decimal (S n) +:+ s, v :: vs)
  end.

Definition sql_compile (sql : SQLQuery) : QueryConfig :=
  let '(s, vs) := compile_from 0 sql in {| text := s; values := vs |}.

(** ** Introspection results read by the plugin *)

Module PgType.
Record t := { id : string }.
End PgType.

Module PgAttribute.
Record t := { name : string; type : PgType.t; typeModifier : option Z }.
End PgAttribute.

Module PgConstraint.
Record t := { keyAttributes : list PgAttribute.t }.
End PgConstraint.

Module PgNamespace.
Record t := { name : string }.
End PgNamespace.

Module PgClass.
Record t := {
  name : string;
  namespace : PgNamespace.t;
  type : PgType.t;
  attributes : list PgAttribute.t;
  primaryKeyConstraint : option PgConstraint.t;
  tags : gmap string JsValue
}.
End PgClass.

Record Scope := {
  pgIntrospection : option PgClass.t;
  pgFieldIntrospection : option PgClass.t;
  pgFieldConstraint : option PgConstraint.t;
  isPgUpdateInputType : bool;
  isPgDeleteInputType : bool;
  isRootMutation : bool;
  isPgUpdateMutationField : bool;
  isPgDeleteMutationField : bool;
  isPgNodeMutation : bool
}.

(** ** GraphQL schema fragments *)

Inductive GraphQLType :=
  | GraphQLNamed (name : string)
  | GraphQLNonNull (ofType : GraphQLType).

#[global] Instance GraphQLType_eq_dec : EqDecision GraphQLType.
Proof. solve_decision. Defined.

Record FieldConfig := { type : GraphQLType; description : string }.

Abbreviation Fields := (gmap string FieldConfig).

(** ** The [build] object and the hook context supplied by the host *)

Record NodeId := { Type_ : option GraphQLType; identifiers : list JsValue }.

Record Build := {
  gql2pg : JsValue -> PgType.t -> option Z -> SQLQuery;
  inflection_column : PgAttribute.t -> string;
  nodeIdFieldName : string;
  pgGetGqlTypeByTypeIdAndModifier : string -> option Z -> option GraphQLType;
  getTypeAndIdentifiersFromNodeId : JsValue -> completion NodeId;
  getTypeByName : string -> GraphQLType;
  extend : Fields -> Fields -> completion Fields
}.

Module HookContext.
Record t := {
  fieldWithHooks : string -> FieldConfig -> FieldConfig;
  scope : Scope
}.
End HookContext.

(** ** The plugin *)

(** [a || b] on objects that may be [undefined]. *)
Definition js_or {A} (a b : option A) : option A :=
  match a with
  | Some _ => a
  | None => b
  end.

(** [table.tags.disableSafeUpdateAndDelete] *)
Definition disableSafeUpdateAndDelete (table : PgClass.t) : JsValue :=
  js_get (PgClass.tags table) "disableSafeUpdateAndDelete".

(** Check if we should omit timestamp verification for this table. *)
Definition omit (scope : Scope) : completion bool :=
  table ← read_of "tags" (js_or (pgFieldIntrospection scope) (pgIntrospection scope));
  Normal (truthy (disableSafeUpdateAndDelete table)).

Inductive Mode := UpdateMode | DeleteMode.

Definition mode_text (mode : Mode) : string :=
  match mode with UpdateMode => "update" | DeleteMode => "delete" end.

Definition find_attribute (timestampColumn : string)
    (attributes : list PgAttribute.t) : option PgAttribute.t :=
  List.find (fun a => bool_decide (PgAttribute.name a = timestampColumn)) attributes.
Arguments find_attribute : simpl never.

(** The [GraphQLInputObjectType:fields] hook of [makeAddTimestampFieldPlugin]. *)
Definition AddTimestampFieldPlugin (timestampColumn : string)
    (fields : Fields) (build : Build) (ctx : HookContext.t) : completion Fields :=
  let scope := HookContext.scope ctx in
  introspection ← read_of "attributes" (pgIntrospection scope);
  let attributes := PgClass.attributes introspection in
  match (if isPgUpdateInputType scope then Some UpdateMode
         else if isPgDeleteInputType scope then Some DeleteMode
         else None) with
  | None => Normal fields
  | Some mode =>
      omitted ← omit scope;
      if (omitted : bool) then Normal fields else
      match find_attribute timestampColumn attributes with
      | None => Normal fields
      | Some timestampAttribute =>
          let DateTimeType := getTypeByName build "Datetime" in
          let timestampField := inflection_column build timestampAttribute in
          extend build fields
            {[ timestampField :=
                 HookContext.fieldWithHooks ctx timestampField
                   {| type := GraphQLNonNull DateTimeType;
                      description :=
                        "The " +:+ dquote +:+ timestampField +:+ dquote +:+
                        " value of the existing row to be " +:+
                        mode_text mode +:+ "d" |} ]}
      end
  end.

(** Get SQL fragment for primary key matching condition. *)
Definition getMutationCondition (scope : Scope) (build : Build)
    (input : gmap string JsValue) : completion SQLQuery :=
  constraint ← read_of "keyAttributes" (pgFieldConstraint scope);
  let keys := PgConstraint.keyAttributes constraint in
  Normal (sql_fragment ["("; ")"] [
    sql_join
      ((fun key =>
          sql_fragment [EmptyString; " = "; EmptyString] [
            sql_identifier [PgAttribute.name key];
            gql2pg build
              (js_get input (inflection_column build key))
              (PgAttribute.type key)
              (PgAttribute.typeModifier key)]) <$> keys)
      ") and ("]).

(** Get SQL fragment for Node ID matching condition. *)
Definition getNodeMutationCondition (scope : Scope) (build : Build)
    (input : gmap string JsValue) : completion SQLQuery :=
  table ← read_of "primaryKeyConstraint" (pgFieldIntrospection scope);
  let primaryKeys :=
    PgConstraint.keyAttributes <$> PgClass.primaryKeyConstraint table in
  let nodeId := js_get input (nodeIdFieldName build) in
  let TableType :=
    pgGetGqlTypeByTypeIdAndModifier build (PgType.id (PgClass.type table)) None in
  node ← getTypeAndIdentifiersFromNodeId build nodeId;
  let identifiers := identifiers node in
  if bool_decide (Type_ node ≠ TableType) then
    Throw (JsError "Mismatched type")
  else
    primaryKeys ← read_of "length" primaryKeys;
    if bool_decide (length identifiers ≠ length primaryKeys) then
      Throw (JsError "Invalid ID")
    else
      Normal (sql_fragment ["("; ")"] [
        sql_join
          (imap (fun idx key =>
             sql_fragment [EmptyString; " = "; EmptyString] [
               sql_identifier [PgAttribute.name key];
               gql2pg build
                 (default JsUndefined (identifiers !! idx))
                 (PgAttribute.type key)
                 (PgAttribute.typeModifier key)]) primaryKeys)
          ") and ("]).

Definition nl : string := String (Ascii.ascii_of_nat 10) EmptyString.

(** Get verification query returning one or more rows with a boolean "ok"
    column.  The template opens with a line continuation, so its first text
    piece starts at the two spaces before [select]. *)
Definition getVerifyTimestampSqlQuery (scope : Scope) (build : Build)
    (input : gmap string JsValue) (timestampAttribute : PgAttribute.t)
    : completion SQLQuery :=
  let table := pgFieldIntrospection scope in
  condition ←
    (if isPgNodeMutation scope
     then getNodeMutationCondition scope build input
     else getMutationCondition scope build input);
  let lmValue :=
    gql2pg build
      (js_get input (inflection_column build timestampAttribute))
      (PgAttribute.type timestampAttribute)
      (PgAttribute.typeModifier timestampAttribute) in
  let sqlColumn := sql_identifier [PgAttribute.name timestampAttribute] in
  table ← read_of "namespace" table;
  Normal (sql_query [
    "  select ";
    " between (";
    " - '5 microsecond'::interval)" +:+ nl +:+ "    and (";
    " + '5 microsecond'::interval) as ok" +:+ nl +:+ "    from ";
    nl +:+ "  where ";
    nl +:+ "  for update"
  ] [
    lmValue;
    sqlColumn;
    sqlColumn;
    sql_identifier [PgNamespace.name (PgClass.namespace table); PgClass.name table];
    condition
  ]).

(** ** Resolution: the trace monad *)

Record ResultRow := { ok : JsValue }.

Record Connection := { query : QueryConfig -> completion (list ResultRow) }.

Record Context := { pgClient : Connection }.

Record ResolveParams := {
  source : JsValue;
  input : gmap string JsValue;
  context : Context;
  resolveInfo : string
}.

(** What one mutation call did: the queries the guard sent through
    [pgClient], and the argument lists the wrapped resolver was called with. *)
Record Trace := {
  queries : list QueryConfig;
  resolved : list ResolveParams
}.

Definition idle : Trace := {| queries := []; resolved := [] |}.

Definition M (A : Type) : Type := Trace -> completion A * Trace.

#[global] Instance M_ret : MRet M := fun A a tr => (Normal a, tr).
#[global] Instance M_bind : MBind M := fun A B f m tr =>
  match m tr with
  | (Normal a, tr') => f a tr'
  | (Throw e, tr') => (Throw e, tr')
  end.

Definition lift {A} (c : completion A) : M A := fun tr => (c, tr).
Definition throw {A} (e : exn) : M A := lift (Throw e).

(** [await pgClient.query(sqlString)] *)
Definition pgClient_query (pgClient : Connection) (sqlString : QueryConfig)
    : M (list ResultRow) :=
  fun tr =>
    (query pgClient sqlString,
     {| queries := queries tr ++ [sqlString]; resolved := resolved tr |}).

(** The wrapped resolver is opaque: all that is observed of a call is its
    arguments and its completion. *)
Definition Resolver : Type := ResolveParams -> completion JsValue.

Definition call (oldResolve : Resolver) (resolveParams : ResolveParams) : M JsValue :=
  fun tr =>
    (oldResolve resolveParams,
     {| queries := queries tr; resolved := resolved tr ++ [resolveParams] |}).

(** Verify the timestamp with the value in the database, throwing an error
    if there is a conflict. *)
Definition verifyTimestamp (scope : Scope) (build : Build)
    (input : gmap string JsValue) (pgClient : Connection)
    (timestampAttribute : PgAttribute.t) : M () :=
  sqlCheckQuery ← lift (getVerifyTimestampSqlQuery scope build input timestampAttribute);
  let sqlString := sql_compile sqlCheckQuery in
  rows ← pgClient_query pgClient sqlString;
  if negb (forallb (fun row => truthy (ok row)) rows) then
    throw (JsError "Mutation blocked due to conflict.")
  else
    mret ().

(** Check if this is the type of mutation we update. *)
Definition isRelevantMutation (scope : Scope) : bool :=
  isRootMutation scope &&
  (isPgUpdateMutationField scope || isPgDeleteMutationField scope).

(** The filter given to [makeWrapResolversPlugin]. *)
Definition VerifyTimestampFilter (scope : Scope) (build : Build)
    : completion (option (Scope * Build)) :=
  if isRelevantMutation scope then
    omitted ← omit scope;
    if negb omitted then Normal (Some (scope, build)) else Normal None
  else Normal None.

(** The resolver wrapper given to [makeWrapResolversPlugin]; [resolver] is
    the wrapped resolver, called without overriding any argument. *)
Definition VerifyTimestampWrapper (timestampColumn : string)
    (match_ : Scope * Build) (resolver : M JsValue) (user : JsValue)
    (input : gmap string JsValue) (context : Context) (_resolveInfo : string)
    : M JsValue :=
  let '(scope, build) := match_ in
  table ← lift (read_of "attributes" (pgFieldIntrospection scope));
  let timestampAttribute :=
    find_attribute timestampColumn (PgClass.attributes table) in
  _ ← match timestampAttribute with
      | Some timestampAttribute =>
          let pgClient := pgClient context in
          verifyTimestamp scope build input pgClient timestampAttribute
      | None => mret ()
      end;
  resolver.

(** [makeWrapResolversPlugin] of graphile-utils on one field: a field the
    filter rejects keeps its resolver; otherwise the rule is called with a
    [resolver] that, given no overrides, passes the original arguments on. *)
Definition makeWrapResolversPlugin {F}
    (filter : Scope -> Build -> completion (option F))
    (rule : F -> M JsValue -> JsValue -> gmap string JsValue -> Context ->
            string -> M JsValue)
    (scope : Scope) (build : Build) (oldResolve : Resolver)
    : completion (ResolveParams -> M JsValue) :=
  filterResult ← filter scope build;
  match filterResult with
  | None => Normal (call oldResolve)
  | Some matched =>
      Normal (fun resolveParams =>
        rule matched (call oldResolve resolveParams)
          (source resolveParams) (input resolveParams)
          (context resolveParams) (resolveInfo resolveParams))
  end.

Definition makeVerifyTimestampPlugin (timestampColumn : string) :=
  makeWrapResolversPlugin VerifyTimestampFilter
    (VerifyTimestampWrapper timestampColumn).

(** The options passed to [makeSafeUpdateAndDeletePlugin]. *)
Record SafeUpdateAndDeletePluginOptions := { timestampColumn : string }.

(** The plugin: both hooks, made from the one column name. *)
Definition makeSafeUpdateAndDeletePlugin (options : SafeUpdateAndDeletePluginOptions) :=
  (AddTimestampFieldPlugin (timestampColumn options),
   makeVerifyTimestampPlugin (timestampColumn options)).

(** One mutation call through the field built by the plugin, starting from
    an empty trace. *)
Definition resolve (timestampColumn : string) (scope : Scope) (build : Build)
    (oldResolve : Resolver) (resolveParams : ResolveParams)
    : completion JsValue * Trace :=
  match makeVerifyTimestampPlugin timestampColumn scope build oldResolve with
  | Normal resolve => resolve resolveParams idle
  | Throw e => (Throw e, idle)
  end.

(** ** The row-locating condition, spelled out

    What section 4.2 of the specification says of the two builders: a
    request yields, for each key attribute in declaration order, the value
    its column must equal; the condition is the conjunction of these
    comparisons.  [condition_conjunction] below shows that the builders
    compute exactly this. *)

Definition keyValues (scope : Scope) (build : Build)
    (input : gmap string JsValue) : completion (list (PgAttribute.t * JsValue)) :=
  if isPgNodeMutation scope then
    table ← read_of "primaryKeyConstraint" (pgFieldIntrospection scope);
    node ← getTypeAndIdentifiersFromNodeId build (js_get input (nodeIdFieldName build));
    if bool_decide
         (Type_ node ≠
          pgGetGqlTypeByTypeIdAndModifier build (PgType.id (PgClass.type table)) None)
    then Throw (JsError "Mismatched type")
    else
      primaryKeys ← read_of "length"
        (PgConstraint.keyAttributes <$> PgClass.primaryKeyConstraint table);
      if bool_decide (length (identifiers node) ≠ length primaryKeys)
      then Throw (JsError "Invalid ID")
      else Normal (zip primaryKeys (identifiers node))
  else
    constraint ← read_of "keyAttributes" (pgFieldConstraint scope);
    Normal ((fun key => (key, js_get input (inflection_column build key))) <$>
              PgConstraint.keyAttributes constraint).

Definition conjunction (build : Build)
    (comparisons : list (PgAttribute.t * JsValue)) : SQLQuery :=
  sql_fragment ["("; ")"] [
    sql_join
      ((fun '(key, val) =>
          sql_fragment [EmptyString; " = "; EmptyString] [
            sql_identifier [PgAttribute.name key];
            gql2pg build val (PgAttribute.type key) (PgAttribute.typeModifier key)])
         <$> comparisons)
      ") and ("].

(** The host passes every value to the database as a query parameter. *)
Definition passes_parameters (build : Build) : Prop :=
  ∀ val type typeModifier, gql2pg build val type typeModifier = sql_value val.

(** The columns and values compared, as the database sees them. *)
Definition columnValues (comparisons : list (PgAttribute.t * JsValue))
    : list (string * JsValue) :=
  prod_map PgAttribute.name id <$> comparisons.

(** ** The statement text, spelled out

    The text [sql_compile] produces for the verification query when
    [gql2pg] passes values as query parameters; [n] parameters precede the
    first comparison. *)

Fixpoint written_conditions (n : nat) (columns : list string) (rest : string)
    : string :=
  match columns with
  | [] => ")" +:+ rest
  | [column] =>
      escapeSqlIdentifier column +:+ " = $" +:+ decimal (S n) +:+ ")" +:+ rest
  | column :: columns' =>
      escapeSqlIdentifier column +:+ " = $" +:+ decimal (S n) +:+ ") and (" +:+
      written_conditions (S n) columns' rest
  end.

Definition written_statement (column schema table : string)
    (columns : list string) : string :=
  "  select $1 between (" +:+ escapeSqlIdentifier column +:+
  " - '5 microsecond'::interval)" +:+ nl +:+
  "    and (" +:+ escapeSqlIdentifier column +:+
  " + '5 microsecond'::interval) as ok" +:+ nl +:+
  "    from " +:+ escapeSqlIdentifier schema +:+ "." +:+
  escapeSqlIdentifier table +:+ nl +:+
  "  where (" +:+ written_conditions 1 columns (nl +:+ "  for update").

(** ** Outcomes of one call, for the statements below *)

(** The call went straight to the wrapped resolver. *)
Definition passed_through (oldResolve : Resolver) (resolveParams : ResolveParams)
    : completion JsValue * Trace :=
  (oldResolve resolveParams, {| queries := []; resolved := [resolveParams] |}).

(** What a guarded call does, by the outcome of each step. *)
Definition guarded_outcome (scope : Scope) (build : Build)
    (oldResolve : Resolver) (resolveParams : ResolveParams)
    (timestampAttribute : PgAttribute.t) : completion JsValue * Trace :=
  match getVerifyTimestampSqlQuery scope build (input resolveParams)
          timestampAttribute with
  | Throw e => (Throw e, idle)
  | Normal sqlCheckQuery =>
      let sqlString := sql_compile sqlCheckQuery in
      match query (pgClient (context resolveParams)) sqlString with
      | Throw e => (Throw e, {| queries := [sqlString]; resolved := [] |})
      | Normal rows =>
          if forallb (fun row => truthy (ok row)) rows
          then (oldResolve resolveParams,
                {| queries := [sqlString]; resolved := [resolveParams] |})
          else (Throw (JsError "Mutation blocked due to conflict."),
                {| queries := [sqlString]; resolved := [] |})
      end
  end.

(** ** The database behind [pgClient]

    A model of how PostgreSQL answers the one statement form the guard
    sends: [select $p between (c - 'n microsecond'::interval) and
    (c' + 'm microsecond'::interval) as ok from s.t where (k = $i) and ...],
    with or without a trailing [for update].  Timestamps are microsecond
    counts, without the infinite values and without a range limit;
    comparisons are three-valued, [None] standing for SQL's unknown, which is
    also what comparing operands that are not timestamps gives here. *)

Module Postgres.

Abbreviation StoredRow := (gmap string JsValue).
Abbreviation Database := (gmap (string * string) (list StoredRow)).

Record Statement := {
  probe : nat;
  lower : string * nat;
  upper : string * nat;
  relation : string * string;
  conditions : list (string * nat);
  for_update : bool
}.

(** *** Reading the statement text *)

Fixpoint strip (prefix s : string) : option string :=
  match prefix with
  | EmptyString => Some s
  | String c prefix' =>
      match s with
      | String d s' => if bool_decide (c = d) then strip prefix' s' else None
      | EmptyString => None
      end
  end.

Definition is_dquote (c : Ascii.ascii) : bool :=
  bool_decide (c = Ascii.ascii_of_nat 34).

(** The body of a quoted identifier, up to its closing quote; a doubled
    quote stands for one quote character. *)
Fixpoint read_quoted (s : string) : option (string * string) :=
  match s with
  | EmptyString => None
  | String c s' =>
      if is_dquote c then
        match s' with
        | String c' s'' =>
            if is_dquote c'
            then prod_map (String c) id <$> read_quoted s''
            else Some (EmptyString, s')
        | EmptyString => Some (EmptyString, EmptyString)
        end
      else prod_map (String c) id <$> read_quoted s'
  end.

Definition read_identifier (s : string) : option (string * string) :=
  match s with
  | String c s' => if is_dquote c then read_quoted s' else None
  | EmptyString => None
  end.

Definition is_digit (c : Ascii.ascii) : bool :=
  bool_decide (48 <= Ascii.nat_of_ascii c <= 57)%nat.

Fixpoint read_digits (s : string) : string * string :=
  match s with
  | String c s' =>
      if is_digit c
      then let '(ds, rest) := read_digits s' in (String c ds, rest)
      else (EmptyString, s)
  | EmptyString => (EmptyString, EmptyString)
  end.

(** A non-empty run of digits. *)
Definition read_number (s : string) : option (nat * string) :=
  let '(ds, rest) := read_digits s in
  d ← NilZero.uint_of_string ds; Some (Nat.of_uint d, rest).

(** [k = $i] followed by more conjuncts or by the closing parenthesis. *)
Fixpoint read_conditions (fuel : nat) (s : string)
    : option (list (string * nat) * string) :=
  match fuel with
  | O => None
  | S fuel' =>
      '(column, s) ← read_identifier s;
      s ← strip " = $" s;
      '(i, s) ← read_number s;
      match strip ") and (" s with
      | Some s =>
          '(more, s) ← read_conditions fuel' s;
          Some ((column, i) :: more, s)
      | None =>
          s ← strip ")" s;
          Some ([(column, i)], s)
      end
  end.

Definition read_statement (s : string) : option Statement :=
  s ← strip "  select $" s;
  '(p, s) ← read_number s;
  s ← strip " between (" s;
  '(c1, s) ← read_identifier s;
  s ← strip " - '" s;
  '(n1, s) ← read_number s;
  s ← strip (" microsecond'::interval)" +:+ nl +:+ "    and (") s;
  '(c2, s) ← read_identifier s;
  s ← strip " + '" s;
  '(n2, s) ← read_number s;
  s ← strip (" microsecond'::interval) as ok" +:+ nl +:+ "    from ") s;
  '(schema, s) ← read_identifier s;
  s ← strip "." s;
  '(table, s) ← read_identifier s;
  s ← strip (nl +:+ "  where (") s;
  '(conds, s) ← read_conditions (String.length s) s;
  let '(locking, s) :=
    match strip (nl +:+ "  for update") s with
    | Some s => (true, s)
    | None => (false, s)
    end in
  match s with
  | EmptyString =>
      Some {| probe := p; lower := (c1, n1); upper := (c2, n2);
              relation := (schema, table); conditions := conds;
              for_update := locking |}
  | _ => None
  end.

(** The next character, if any, is not a double quote (not a digit). *)
Definition unquoted (s : string) : Prop :=
  match s with
  | String c _ => is_dquote c = false
  | EmptyString => True
  end.

Definition undigit (s : string) : Prop :=
  match s with
  | String c _ => is_digit c = false
  | EmptyString => True
  end.

(** *** Evaluating it *)

Definition is_null (v : JsValue) : bool :=
  match v with JsUndefined | JsNull => true | _ => false end.

Definition column (row : StoredRow) (c : string) : JsValue :=
  default JsNull (row !! c).

Definition sql_eq (a b : JsValue) : option bool :=
  if is_null a || is_null b then None else Some (bool_decide (a = b)).

Definition sql_le (a b : JsValue) : option bool :=
  match a, b with
  | JsDatetime x, JsDatetime y => Some (x <=? y)
  | _, _ => None
  end.

Definition sql_and (a b : option bool) : option bool :=
  match a, b with
  | Some false, _ | _, Some false => Some false
  | Some true, Some true => Some true
  | _, _ => None
  end.

(** [timestamp + interval], the interval in microseconds. *)
Definition shift (v : JsValue) (microseconds : Z) : JsValue :=
  match v with
  | JsDatetime t => JsDatetime (t + microseconds)
  | _ => JsNull
  end.

Definition between (x lo hi : JsValue) : option bool :=
  sql_and (sql_le lo x) (sql_le x hi).

Definition satisfies (conds : list (string * JsValue)) (row : StoredRow) : bool :=
  forallb (fun '(c, v) => bool_decide (sql_eq (column row c) v = Some true)) conds.

Definition to_js (b : option bool) : JsValue :=
  match b with
  | Some b => JsBoolean b
  | None => JsNull
  end.

(** [$i] is the [i]-th element of the values array, counted from 1. *)
Definition parameter (values : list JsValue) (i : nat) : option JsValue :=
  match i with
  | O => None
  | S i' => values !! i'
  end.

Definition bind_conditions (values : list JsValue)
    (conds : list (string * nat)) : option (list (string * JsValue)) :=
  mapM (fun '(c, i) => v ← parameter values i; Some (c, v)) conds.

Definition ok_of (x : JsValue) (st : Statement) (row : StoredRow) : JsValue :=
  to_js (between x
    (shift (column row (lower st).1) (- Z.of_nat (lower st).2))
    (shift (column row (upper st).1) (Z.of_nat (upper st).2))).

Record Answer := { rows : list ResultRow; locked : list StoredRow }.

Definition execute (db : Database) (sqlString : QueryConfig) : completion Answer :=
  match read_statement (text sqlString) with
  | None => Throw (HostFailure "syntax error")
  | Some st =>
      match db !! relation st with
      | None => Throw (HostFailure "relation does not exist")
      | Some stored =>
          match parameter (values sqlString) (probe st),
                bind_conditions (values sqlString) (conditions st) with
          | Some x, Some conds =>
              let matched := List.filter (satisfies conds) stored in
              Normal {|
                rows := (fun row => {| ok := ok_of x st row |}) <$> matched;
                locked := if for_update st then matched else []
              |}
          | _, _ => Throw (HostFailure "there is no parameter")
          end
      end
  end.

(** A connection to the database [db]. *)
Definition connect (db : Database) : Connection :=
  {| query := fun sqlString => rows <$> execute db sqlString |}.

End Postgres.

(** ** A sample schema

    The concrete tables, scopes and requests at which the theorems below are
    instantiated. *)

Module Sample.

Definition attribute (name typeId : string) : PgAttribute.t :=
  {| PgAttribute.name := name;
     PgAttribute.type := {| PgType.id := typeId |};
     PgAttribute.typeModifier := None |}.

Definition id_ : PgAttribute.t := attribute "id" "23".
Definition updated_at : PgAttribute.t := attribute "updated_at" "1184".
Definition key : PgConstraint.t := {| PgConstraint.keyAttributes := [id_] |}.

Definition table (name typeId : string) (attributes : list PgAttribute.t)
    (primaryKey : option PgConstraint.t) (tags : gmap string JsValue) : PgClass.t :=
  {| PgClass.name := name;
     PgClass.namespace := {| PgNamespace.name := "app" |};
     PgClass.type := {| PgType.id := typeId |};
     PgClass.attributes := attributes;
     PgClass.primaryKeyConstraint := primaryKey;
     PgClass.tags := tags |}.

(** Guarded; opted out by a smart tag; without the timestamp column;
    with the timestamp column but without a primary key. *)
Definition post : PgClass.t := table "post" "16385" [id_; updated_at] (Some key) ∅.
Definition archive : PgClass.t :=
  table "archive" "16390" [id_; updated_at] (Some key)
    {[ "disableSafeUpdateAndDelete" := JsBoolean true ]}.
Definition audit : PgClass.t := table "audit" "16395" [id_] (Some key) ∅.
Definition event : PgClass.t := table "event" "16400" [id_; updated_at] None ∅.

Definition Post : GraphQLType := GraphQLNamed "Post".
Definition Event : GraphQLType := GraphQLNamed "Event".

Definition decode (nodeId : JsValue) : completion NodeId :=
  match nodeId with
  | JsString s =>
      if bool_decide (s = "WyJwb3N0cyIsN10=") then
        Normal {| Type_ := Some Post; identifiers := [JsNumber 7] |}
      else if bool_decide (s = "WyJwb3N0cyIsNyw4XQ==") then
        Normal {| Type_ := Some Post; identifiers := [JsNumber 7; JsNumber 8] |}
      else if bool_decide (s = "WyJldmVudHMiLDdd") then
        Normal {| Type_ := Some Event; identifiers := [JsNumber 7] |}
      else Throw (HostFailure "Unexpected token in JSON")
  | _ => Throw (HostFailure "Unexpected token in JSON")
  end.

Definition build : Build :=
  {| gql2pg := fun val _ _ => sql_value val;
     inflection_column := fun a =>
       if bool_decide (PgAttribute.name a = "updated_at") then "updatedAt"
       else PgAttribute.name a;
     nodeIdFieldName := "nodeId";
     pgGetGqlTypeByTypeIdAndModifier := fun typeId _ =>
       if bool_decide (typeId = "16385") then Some Post
       else if bool_decide (typeId = "16400") then Some Event
       else None;
     getTypeAndIdentifiersFromNodeId := decode;
     getTypeByName := GraphQLNamed;
     extend := fun base extra => Normal (extra ∪ base) |}.

(** Scope of the update (or delete) input type of [table]. *)
Definition inputType (table : PgClass.t) (updating : bool) : Scope :=
  {| pgIntrospection := Some table;
     pgFieldIntrospection := None;
     pgFieldConstraint := None;
     isPgUpdateInputType := updating;
     isPgDeleteInputType := negb updating;
     isRootMutation := false;
     isPgUpdateMutationField := false;
     isPgDeleteMutationField := false;
     isPgNodeMutation := false |}.

(** Scope of the root update mutation of [table], by key or by node id. *)
Definition mutation (table : PgClass.t) (byNodeId : bool) : Scope :=
  {| pgIntrospection := None;
     pgFieldIntrospection := Some table;
     pgFieldConstraint := if byNodeId then None else Some key;
     isPgUpdateInputType := false;
     isPgDeleteInputType := false;
     isRootMutation := true;
     isPgUpdateMutationField := true;
     isPgDeleteMutationField := false;
     isPgNodeMutation := byNodeId |}.

Definition hook (scope : Scope) : HookContext.t :=
  {| HookContext.fieldWithHooks := fun _ spec => spec;
     HookContext.scope := scope |}.

Definition fields : Fields :=
  {[ "clientMutationId" := {| type := GraphQLNamed "String"; description := "id" |} ]}.

(** Row 7 was last written at 1000004; row 8 at 2000000. *)
Definition stored (id_ updated_at : Z) : gmap string JsValue :=
  {[ "id" := JsNumber id_; "updated_at" := JsDatetime updated_at ]}.

Definition db : Postgres.Database :=
  {[ ("app", "post") := [stored 7 1000004; stored 8 2000000];
     ("app", "event") := [stored 7 1000004] ]}.

Definition request (fields : gmap string JsValue) : ResolveParams :=
  {| source := JsNull;
     input := fields;
     context := {| pgClient := Postgres.connect db |};
     resolveInfo := "updatePost" |}.

Definition byKey (id_ updatedAt : Z) : ResolveParams :=
  request {[ "id" := JsNumber id_; "updatedAt" := JsDatetime updatedAt ]}.

Definition byNodeId (nodeId : string) (updatedAt : Z) : ResolveParams :=
  request {[ "nodeId" := JsString nodeId; "updatedAt" := JsDatetime updatedAt ]}.

Definition executor : Resolver := fun _ => Normal (JsString "updated").

(** The verification query of [byKey id_ updatedAt] on [post]. *)
Definition verification (id_ updatedAt : Z) : SQLQuery :=
  [RAW "  select "; VALUE (JsDatetime updatedAt); RAW " between (";
   IDENTIFIER ["updated_at"];
   RAW (" - '5 microsecond'::interval)" +:+ nl +:+ "    and (");
   IDENTIFIER ["updated_at"];
   RAW (" + '5 microsecond'::interval) as ok" +:+ nl +:+ "    from ");
   IDENTIFIER ["app"; "post"];
   RAW (nl +:+ "  where ");
   RAW "("; IDENTIFIER ["id"]; RAW " = "; VALUE (JsNumber id_); RAW ")";
   RAW (nl +:+ "  for update")].

End Sample.

(** ** Further cases

    More requests and databases at which the later theorems are
    instantiated. *)

Module Cases.

(** A client whose connection is gone. *)
Definition offline : Connection :=
  {| query := fun _ => Throw (HostFailure "Connection terminated unexpectedly") |}.

Definition request (pgClient : Connection) (fields : gmap string JsValue)
    : ResolveParams :=
  {| source := JsNull;
     input := fields;
     context := {| pgClient := pgClient |};
     resolveInfo := "updatePost" |}.

Definition byKey (pgClient : Connection) (id_ updatedAt : Z) : ResolveParams :=
  request pgClient {[ "id" := JsNumber id_; "updatedAt" := JsDatetime updatedAt ]}.

(** Row 7 of [app.post] was never stamped. *)
Definition unstamped : gmap string JsValue :=
  {[ "id" := JsNumber 7; "updated_at" := JsNull ]}.

Definition legacy : Postgres.Database := {[ ("app", "post") := [unstamped] ]}.

(** A table whose smart comment reads [@disableSafeUpdateAndDelete false]. *)
Definition tagged_false : PgClass.t :=
  Sample.table "ledger" "16405" [Sample.id_; Sample.updated_at] (Some Sample.key)
    {[ "disableSafeUpdateAndDelete" := JsString "false" ]}.

(** The scope of a field that is not a root mutation and carries no table. *)
Definition query_field : Scope :=
  {| pgIntrospection := None;
     pgFieldIntrospection := None;
     pgFieldConstraint := None;
     isPgUpdateInputType := false;
     isPgDeleteInputType := false;
     isRootMutation := false;
     isPgUpdateMutationField := true;
     isPgDeleteMutationField := false;
     isPgNodeMutation := false |}.

(** The scope of an input type that belongs to no table. *)
Definition interval_input : Scope :=
  {| pgIntrospection := None;
     pgFieldIntrospection := None;
     pgFieldConstraint := None;
     isPgUpdateInputType := false;
     isPgDeleteInputType := false;
     isRootMutation := false;
     isPgUpdateMutationField := false;
     isPgDeleteMutationField := false;
     isPgNodeMutation := false |}.

(** The scope of the create input type of [post]: it carries the table and
    is neither an update nor a delete input. *)
Definition createPostInput : Scope :=
  {| pgIntrospection := Some Sample.post;
     pgFieldIntrospection := None;
     pgFieldConstraint := None;
     isPgUpdateInputType := false;
     isPgDeleteInputType := false;
     isRootMutation := false;
     isPgUpdateMutationField := false;
     isPgDeleteMutationField := false;
     isPgNodeMutation := false |}.

(** The root delete mutation of [post], by key. *)
Definition deletePost : Scope :=
  {| pgIntrospection := None;
     pgFieldIntrospection := Some Sample.post;
     pgFieldConstraint := Some Sample.key;
     isPgUpdateInputType := false;
     isPgDeleteInputType := false;
     isRootMutation := true;
     isPgUpdateMutationField := false;
     isPgDeleteMutationField := true;
     isPgNodeMutation := false |}.

End Cases.

(** * Properties *)

(** ** Attribute lookup *)

Lemma find_attribute_None (timestampColumn : string) (attributes : list PgAttribute.t) :
  Forall (fun a => PgAttribute.name a ≠ timestampColumn) attributes ->
  find_attribute timestampColumn attributes = None.
Proof.
  unfold find_attribute.
  induction 1 as [|a attributes Ha _ IH]; simpl; [done|].
  by rewrite bool_decide_false.
Qed.

(** ** The resolver wrapper, case by case *)

(** [Array.prototype.find] returns the first attribute named
    [timestampColumn]. *)
Lemma find_attribute_first (timestampColumn : string)
    (before after : list PgAttribute.t) (timestampAttribute : PgAttribute.t) :
  Forall (fun a => PgAttribute.name a ≠ timestampColumn) before ->
  PgAttribute.name timestampAttribute = timestampColumn ->
  find_attribute timestampColumn (before ++ timestampAttribute :: after) =
  Some timestampAttribute.
Proof.
  intros Hbefore Hname. unfold find_attribute.
  induction Hbefore as [|a before Ha _ IH]; simpl.
  - by rewrite bool_decide_eq_true_2.
  - by rewrite bool_decide_eq_false_2.
Qed.

(** What [find] returns is an attribute of the list, named
    [timestampColumn]. *)
Lemma find_attribute_Some (timestampColumn : string)
    (attributes : list PgAttribute.t) (timestampAttribute : PgAttribute.t) :
  find_attribute timestampColumn attributes = Some timestampAttribute ->
  timestampAttribute ∈ attributes ∧
  PgAttribute.name timestampAttribute = timestampColumn.
Proof.
  unfold find_attribute. induction attributes as [|a attributes IH]; simpl; [done|].
  case_bool_decide as Ha.
  - intros [= <-]. split; [apply list_elem_of_here | done].
  - intros [Hin Hname]%IH. split; [by apply list_elem_of_further | done].
Qed.

Section Resolution.

Context (timestampColumn : string) (scope : Scope) (build : Build).
Context (oldResolve : Resolver) (resolveParams : ResolveParams).

(** A field the filter rejects resolves as before. *)
Lemma resolve_unfiltered :
  VerifyTimestampFilter scope build = Normal None ->
  resolve timestampColumn scope build oldResolve resolveParams =
  passed_through oldResolve resolveParams.
Proof.
  intros H. unfold resolve, makeVerifyTimestampPlugin, makeWrapResolversPlugin.
  by rewrite H.
Qed.

(** A field the filter accepts resolves through the wrapper. *)
Lemma resolve_filtered :
  VerifyTimestampFilter scope build = Normal (Some (scope, build)) ->
  resolve timestampColumn scope build oldResolve resolveParams =
  VerifyTimestampWrapper timestampColumn (scope, build)
    (call oldResolve resolveParams) (source resolveParams)
    (input resolveParams) (context resolveParams) (resolveInfo resolveParams) idle.
Proof.
  intros H. unfold resolve, makeVerifyTimestampPlugin, makeWrapResolversPlugin.
  by rewrite H.
Qed.

Context (table : PgClass.t).
Hypothesis Htable : pgFieldIntrospection scope = Some table.

Lemma omit_field_table :
  omit scope = Normal (truthy (disableSafeUpdateAndDelete table)).
Proof. unfold omit. by rewrite Htable. Qed.

Lemma filter_opted_out :
  truthy (disableSafeUpdateAndDelete table) = true ->
  VerifyTimestampFilter scope build = Normal None.
Proof.
  intros H. unfold VerifyTimestampFilter.
  destruct (isRelevantMutation scope); [|done].
  by rewrite omit_field_table, H.
Qed.

Lemma filter_guarded :
  isRelevantMutation scope = true ->
  truthy (disableSafeUpdateAndDelete table) = false ->
  VerifyTimestampFilter scope build = Normal (Some (scope, build)).
Proof.
  intros Hrel H. unfold VerifyTimestampFilter.
  by rewrite Hrel, omit_field_table, H.
Qed.

Lemma filter_cases :
  VerifyTimestampFilter scope build = Normal None ∨
  VerifyTimestampFilter scope build = Normal (Some (scope, build)).
Proof.
  unfold VerifyTimestampFilter.
  destruct (isRelevantMutation scope); [|by left].
  rewrite omit_field_table.
  destruct (truthy _); simpl; [by left | by right].
Qed.

(** Without the timestamp column the wrapper goes straight to the resolver. *)
Lemma resolve_without_column :
  find_attribute timestampColumn (PgClass.attributes table) = None ->
  resolve timestampColumn scope build oldResolve resolveParams =
  passed_through oldResolve resolveParams.
Proof.
  intros Hfind. destruct filter_cases as [H|H].
  - by apply resolve_unfiltered.
  - rewrite (resolve_filtered H). unfold VerifyTimestampWrapper.
    rewrite Htable. unfold mbind, M_bind, lift; simpl. by rewrite Hfind.
Qed.

Lemma resolve_guarded (timestampAttribute : PgAttribute.t) :
  isRelevantMutation scope = true ->
  truthy (disableSafeUpdateAndDelete table) = false ->
  find_attribute timestampColumn (PgClass.attributes table) = Some timestampAttribute ->
  resolve timestampColumn scope build oldResolve resolveParams =
  guarded_outcome scope build oldResolve resolveParams timestampAttribute.
Proof.
  intros Hrel Htag Hfind.
  rewrite (resolve_filtered (filter_guarded Hrel Htag)).
  unfold VerifyTimestampWrapper, guarded_outcome.
  rewrite Htable. unfold mbind, M_bind, lift; simpl. rewrite Hfind.
  unfold verifyTimestamp, mbind, M_bind, lift, pgClient_query, throw, lift, call, idle.
  destruct (getVerifyTimestampSqlQuery _ _ _ _) as [q|e]; simpl; [|done].
  destruct (query _ _) as [rows|e]; simpl; [|done].
  by destruct (forallb _ rows).
Qed.

End Resolution.

(** ** The schema hook *)

(** C9 (the code departs from it): the hook reads
    [scope.pgIntrospection.attributes] before it looks at the kind of input
    type, although it goes on to return the fields of an input type that is
    neither an update nor a delete input.  On the input type of a scope that
    names no table, which is of neither kind, the hook does not return the
    fields unchanged: it throws a TypeError.  On the create input type of
    [post], of neither kind as well, it returns them. *)
Theorem table_less_input_type_throws :
  isPgUpdateInputType Cases.interval_input = false ∧
  isPgDeleteInputType Cases.interval_input = false ∧
  AddTimestampFieldPlugin "updated_at" Sample.fields Sample.build
    (Sample.hook Cases.interval_input) =
  Throw (JsTypeError "Cannot read property 'attributes' of undefined") ∧
  AddTimestampFieldPlugin "updated_at" Sample.fields Sample.build
    (Sample.hook Cases.interval_input) ≠ Normal Sample.fields ∧
  AddTimestampFieldPlugin "updated_at" Sample.fields Sample.build
    (Sample.hook Cases.createPostInput) = Normal Sample.fields.
Proof.
  repeat split; done.
Qed.

(** C7: when the table carries a truthy [disableSafeUpdateAndDelete] tag,
    whatever its attributes, the schema hook returns the fields it was given
    and a call through the plugin's field is exactly a call of the wrapped
    resolver: no query is sent, the resolver is called once with the original
    arguments, and its completion is the call's. *)
Theorem opt_out_is_noop (timestampColumn : string) (table : PgClass.t) :
  truthy (disableSafeUpdateAndDelete table) = true ->
  (∀ fields build ctx,
     pgIntrospection (HookContext.scope ctx) = Some table ->
     pgFieldIntrospection (HookContext.scope ctx) = None ->
     AddTimestampFieldPlugin timestampColumn fields build ctx = Normal fields) ∧
  (∀ scope build oldResolve resolveParams,
     pgFieldIntrospection scope = Some table ->
     resolve timestampColumn scope build oldResolve resolveParams =
     (oldResolve resolveParams, {| queries := []; resolved := [resolveParams] |})).
Proof.
  intros Htag. split.
  - intros fields build ctx Hintro Hfield. unfold AddTimestampFieldPlugin.
    rewrite Hintro; simpl.
    assert (omit (HookContext.scope ctx) = Normal true) as ->.
    { unfold omit. by rewrite Hfield, Hintro; simpl; rewrite Htag. }
    by destruct (isPgUpdateInputType (HookContext.scope ctx)),
      (isPgDeleteInputType (HookContext.scope ctx)).
  - intros scope build oldResolve resolveParams Htable.
    apply resolve_unfiltered. by eapply filter_opted_out.
Qed.

Lemma opt_out_is_noop_witness :
  AddTimestampFieldPlugin "updated_at" Sample.fields Sample.build
    (Sample.hook (Sample.inputType Sample.archive true)) = Normal Sample.fields ∧
  resolve "updated_at" (Sample.mutation Sample.archive false) Sample.build
    Sample.executor (Sample.byKey 7 0) =
  (Normal (JsString "updated"),
   {| queries := []; resolved := [Sample.byKey 7 0] |}).
Proof.
  destruct (opt_out_is_noop "updated_at" Sample.archive eq_refl) as [Hhook Hresolve].
  split.
  - exact (Hhook Sample.fields Sample.build
             (Sample.hook (Sample.inputType Sample.archive true)) eq_refl eq_refl).
  - exact (Hresolve (Sample.mutation Sample.archive false) Sample.build
             Sample.executor (Sample.byKey 7 0) eq_refl).
Defined.

(** C8: when no attribute of the table is named [timestampColumn], the
    schema hook returns the fields it was given and a call through the
    plugin's field is exactly a call of the wrapped resolver, with no query
    sent. *)
Theorem no_timestamp_column_is_noop (timestampColumn : string) (table : PgClass.t) :
  Forall (fun a => PgAttribute.name a ≠ timestampColumn) (PgClass.attributes table) ->
  (∀ fields build ctx,
     pgIntrospection (HookContext.scope ctx) = Some table ->
     AddTimestampFieldPlugin timestampColumn fields build ctx = Normal fields) ∧
  (∀ scope build oldResolve resolveParams,
     pgFieldIntrospection scope = Some table ->
     resolve timestampColumn scope build oldResolve resolveParams =
     (oldResolve resolveParams, {| queries := []; resolved := [resolveParams] |})).
Proof.
  intros Hnone%find_attribute_None. split.
  - intros fields build ctx Hintro. unfold AddTimestampFieldPlugin.
    rewrite Hintro; simpl. rewrite Hnone.
    assert (∃ b, omit (HookContext.scope ctx) = Normal b) as [b ->].
    { unfold omit. rewrite Hintro.
      destruct (pgFieldIntrospection _); simpl; eauto. }
    by destruct (isPgUpdateInputType (HookContext.scope ctx)),
      (isPgDeleteInputType (HookContext.scope ctx)), b.
  - intros scope build oldResolve resolveParams Htable.
    by eapply resolve_without_column.
Qed.

Lemma no_timestamp_column_is_noop_witness :
  AddTimestampFieldPlugin "updated_at" Sample.fields Sample.build
    (Sample.hook (Sample.inputType Sample.audit false)) = Normal Sample.fields ∧
  resolve "updated_at" (Sample.mutation Sample.audit false) Sample.build
    Sample.executor (Sample.byKey 7 0) =
  (Normal (JsString "updated"),
   {| queries := []; resolved := [Sample.byKey 7 0] |}).
Proof.
  assert (Forall (fun a => PgAttribute.name a ≠ "updated_at")
            (PgClass.attributes Sample.audit)) as Hnone.
  { repeat constructor. vm_compute. discriminate. }
  destruct (no_timestamp_column_is_noop "updated_at" Sample.audit Hnone)
    as [Hhook Hresolve].
  split.
  - exact (Hhook Sample.fields Sample.build
             (Sample.hook (Sample.inputType Sample.audit false)) eq_refl).
  - exact (Hresolve (Sample.mutation Sample.audit false) Sample.build
             Sample.executor (Sample.byKey 7 0) eq_refl).
Defined.

(** ** Node identifiers *)

Section NodeMutation.

Context (scope : Scope) (build : Build) (input : gmap string JsValue).
Context (table : PgClass.t) (node : NodeId).
Hypothesis Htable : pgFieldIntrospection scope = Some table.
Hypothesis Hnode :
  getTypeAndIdentifiersFromNodeId build (js_get input (nodeIdFieldName build)) =
  Normal node.

Let TableType : option GraphQLType :=
  pgGetGqlTypeByTypeIdAndModifier build (PgType.id (PgClass.type table)) None.

Lemma node_condition_mismatched_type :
  Type_ node ≠ TableType ->
  getNodeMutationCondition scope build input = Throw (JsError "Mismatched type").
Proof.
  intros H. unfold getNodeMutationCondition.
  rewrite Htable; simpl. rewrite Hnode; simpl.
  by rewrite bool_decide_true.
Qed.

Lemma node_condition_invalid_id (primaryKey : PgConstraint.t) :
  Type_ node = TableType ->
  PgClass.primaryKeyConstraint table = Some primaryKey ->
  length (identifiers node) ≠ length (PgConstraint.keyAttributes primaryKey) ->
  getNodeMutationCondition scope build input = Throw (JsError "Invalid ID").
Proof.
  intros Htype Hkey Hlen. unfold getNodeMutationCondition.
  rewrite Htable; simpl. rewrite Hnode; simpl.
  rewrite bool_decide_false by (intros ?; contradiction).
  rewrite Hkey; simpl. by rewrite bool_decide_true.
Qed.

Lemma node_condition_without_key :
  Type_ node = TableType ->
  PgClass.primaryKeyConstraint table = None ->
  getNodeMutationCondition scope build input =
  Throw (JsTypeError "Cannot read property 'length' of undefined").
Proof.
  intros Htype Hkey. unfold getNodeMutationCondition.
  rewrite Htable; simpl. rewrite Hnode; simpl.
  rewrite bool_decide_false by (intros ?; contradiction).
  by rewrite Hkey.
Qed.

End NodeMutation.

(** A guarded call whose condition cannot be built fails with the builder's
    error before anything is sent or called. *)
Lemma resolve_condition_throws (timestampColumn : string) (scope : Scope)
    (build : Build) (oldResolve : Resolver) (resolveParams : ResolveParams)
    (table : PgClass.t) (timestampAttribute : PgAttribute.t) (e : exn) :
  pgFieldIntrospection scope = Some table ->
  isRelevantMutation scope = true ->
  truthy (disableSafeUpdateAndDelete table) = false ->
  find_attribute timestampColumn (PgClass.attributes table) = Some timestampAttribute ->
  (if isPgNodeMutation scope
   then getNodeMutationCondition scope build (input resolveParams)
   else getMutationCondition scope build (input resolveParams)) = Throw e ->
  resolve timestampColumn scope build oldResolve resolveParams = (Throw e, idle).
Proof.
  intros Htable Hrel Htag Hfind Hcond.
  rewrite (resolve_guarded timestampColumn scope build oldResolve resolveParams
             table Htable timestampAttribute Hrel Htag Hfind).
  unfold guarded_outcome, getVerifyTimestampSqlQuery. by rewrite Hcond.
Qed.

(** C4: in node mode, on a guarded table, an identifier whose decoded type
    is not the table's type makes condition building throw Mismatched type;
    one of the table's type whose number of values differs from the number
    of primary key attributes makes it throw Invalid ID.  In both cases the
    call fails with that error, no query has been sent and the wrapped
    resolver has not been called. *)
Theorem node_id_validated_before_query (timestampColumn : string) (scope : Scope)
    (build : Build) (oldResolve : Resolver) (resolveParams : ResolveParams)
    (table : PgClass.t) (timestampAttribute : PgAttribute.t) (node : NodeId) :
  let TableType :=
    pgGetGqlTypeByTypeIdAndModifier build (PgType.id (PgClass.type table)) None in
  isRelevantMutation scope = true ->
  isPgNodeMutation scope = true ->
  pgFieldIntrospection scope = Some table ->
  truthy (disableSafeUpdateAndDelete table) = false ->
  find_attribute timestampColumn (PgClass.attributes table) = Some timestampAttribute ->
  getTypeAndIdentifiersFromNodeId build
    (js_get (input resolveParams) (nodeIdFieldName build)) = Normal node ->
  (Type_ node ≠ TableType ->
   getNodeMutationCondition scope build (input resolveParams) =
     Throw (JsError "Mismatched type") ∧
   resolve timestampColumn scope build oldResolve resolveParams =
     (Throw (JsError "Mismatched type"), {| queries := []; resolved := [] |})) ∧
  (∀ primaryKey,
     Type_ node = TableType ->
     PgClass.primaryKeyConstraint table = Some primaryKey ->
     length (identifiers node) ≠ length (PgConstraint.keyAttributes primaryKey) ->
     getNodeMutationCondition scope build (input resolveParams) =
       Throw (JsError "Invalid ID") ∧
     resolve timestampColumn scope build oldResolve resolveParams =
       (Throw (JsError "Invalid ID"), {| queries := []; resolved := [] |})).
Proof.
  intros TableType Hrel Hmode Htable Htag Hfind Hnode. split.
  - intros Htype.
    pose proof (node_condition_mismatched_type _ _ _ _ _ Htable Hnode Htype) as Hcond.
    split; [done|].
    eapply resolve_condition_throws; eauto. by rewrite Hmode.
  - intros primaryKey Htype Hkey Hlen.
    pose proof (node_condition_invalid_id _ _ _ _ _ Htable Hnode _ Htype Hkey Hlen)
      as Hcond.
    split; [done|].
    eapply resolve_condition_throws; eauto. by rewrite Hmode.
Qed.

Lemma node_id_validated_before_query_witness :
  resolve "updated_at" (Sample.mutation Sample.post true) Sample.build
    Sample.executor (Sample.byNodeId "WyJldmVudHMiLDdd" 1000000) =
    (Throw (JsError "Mismatched type"), {| queries := []; resolved := [] |}) ∧
  resolve "updated_at" (Sample.mutation Sample.post true) Sample.build
    Sample.executor (Sample.byNodeId "WyJwb3N0cyIsNyw4XQ==" 1000000) =
    (Throw (JsError "Invalid ID"), {| queries := []; resolved := [] |}).
Proof.
  split.
  - refine (proj2 (proj1 (node_id_validated_before_query "updated_at"
      (Sample.mutation Sample.post true) Sample.build Sample.executor
      (Sample.byNodeId "WyJldmVudHMiLDdd" 1000000) Sample.post Sample.updated_at
      {| Type_ := Some Sample.Event; identifiers := [JsNumber 7] |}
      eq_refl eq_refl eq_refl eq_refl eq_refl eq_refl) _)).
    vm_compute. discriminate.
  - refine (proj2 (proj2 (node_id_validated_before_query "updated_at"
      (Sample.mutation Sample.post true) Sample.build Sample.executor
      (Sample.byNodeId "WyJwb3N0cyIsNyw4XQ==" 1000000) Sample.post Sample.updated_at
      {| Type_ := Some Sample.Post; identifiers := [JsNumber 7; JsNumber 8] |}
      eq_refl eq_refl eq_refl eq_refl eq_refl eq_refl) Sample.key eq_refl eq_refl _)).
    vm_compute. discriminate.
Defined.

(** C10, as it holds: in node mode on a table without a primary key
    constraint, an identifier that decodes to the table's own type makes
    condition building read [length] of [undefined]: it throws a TypeError,
    neither Mismatched type nor Invalid ID, and a guarded call fails with it
    before any query is sent or the wrapped resolver is called. *)
Theorem node_mutation_without_primary_key (timestampColumn : string)
    (scope : Scope) (build : Build) (oldResolve : Resolver)
    (resolveParams : ResolveParams) (table : PgClass.t) (node : NodeId) :
  pgFieldIntrospection scope = Some table ->
  PgClass.primaryKeyConstraint table = None ->
  getTypeAndIdentifiersFromNodeId build
    (js_get (input resolveParams) (nodeIdFieldName build)) = Normal node ->
  Type_ node =
    pgGetGqlTypeByTypeIdAndModifier build (PgType.id (PgClass.type table)) None ->
  getNodeMutationCondition scope build (input resolveParams) =
    Throw (JsTypeError "Cannot read property 'length' of undefined") ∧
  (∀ timestampAttribute,
     isRelevantMutation scope = true ->
     isPgNodeMutation scope = true ->
     truthy (disableSafeUpdateAndDelete table) = false ->
     find_attribute timestampColumn (PgClass.attributes table) =
       Some timestampAttribute ->
     resolve timestampColumn scope build oldResolve resolveParams =
       (Throw (JsTypeError "Cannot read property 'length' of undefined"),
        {| queries := []; resolved := [] |})).
Proof.
  intros Htable Hkey Hnode Htype.
  pose proof (node_condition_without_key _ _ _ _ _ Htable Hnode Htype Hkey) as Hcond.
  split; [done|].
  intros timestampAttribute Hrel Hmode Htag Hfind.
  eapply resolve_condition_throws; eauto. by rewrite Hmode.
Qed.

Lemma node_mutation_without_primary_key_witness :
  resolve "updated_at" (Sample.mutation Sample.event true) Sample.build
    Sample.executor (Sample.byNodeId "WyJldmVudHMiLDdd" 1000000) =
  (Throw (JsTypeError "Cannot read property 'length' of undefined"),
   {| queries := []; resolved := [] |}).
Proof.
  exact (proj2 (node_mutation_without_primary_key "updated_at"
    (Sample.mutation Sample.event true) Sample.build Sample.executor
    (Sample.byNodeId "WyJldmVudHMiLDdd" 1000000) Sample.event
    {| Type_ := Some Sample.Event; identifiers := [JsNumber 7] |}
    eq_refl eq_refl eq_refl eq_refl) Sample.updated_at eq_refl eq_refl eq_refl eq_refl).
Defined.

(** C10, as stated, fails: the table [event] has no primary key constraint,
    yet in node mode an identifier of another type is answered with
    Mismatched type, thrown before the primary key list is read. *)
Lemma node_mutation_without_primary_key_counterexample :
  PgClass.primaryKeyConstraint Sample.event = None ∧
  isPgNodeMutation (Sample.mutation Sample.event true) = true ∧
  getNodeMutationCondition (Sample.mutation Sample.event true) Sample.build
    (input (Sample.byNodeId "WyJwb3N0cyIsN10=" 1000000)) =
    Throw (JsError "Mismatched type") ∧
  resolve "updated_at" (Sample.mutation Sample.event true) Sample.build
    Sample.executor (Sample.byNodeId "WyJwb3N0cyIsN10=" 1000000) =
    (Throw (JsError "Mismatched type"), {| queries := []; resolved := [] |}).
Proof. repeat split; reflexivity. Qed.

(** ** The decision *)

Lemma forallb_Forall {A} (f : A -> bool) (l : list A) :
  Forall (fun x => f x = true) l -> forallb f l = true.
Proof. induction 1 as [|x l Hx _ IH]; simpl; [done|]. by rewrite Hx, IH. Qed.

(** C5: on a guarded call whose verification query is answered with rows
    that all have a truthy [ok], the wrapped resolver is called exactly once,
    with the arguments of the call, and the call completes as the resolver
    does, by value or by failure. *)
Theorem verified_call_runs_executor_once (timestampColumn : string) (scope : Scope)
    (build : Build) (oldResolve : Resolver) (resolveParams : ResolveParams)
    (table : PgClass.t) (timestampAttribute : PgAttribute.t)
    (sqlCheckQuery : SQLQuery) (rows : list ResultRow) :
  pgFieldIntrospection scope = Some table ->
  isRelevantMutation scope = true ->
  truthy (disableSafeUpdateAndDelete table) = false ->
  find_attribute timestampColumn (PgClass.attributes table) = Some timestampAttribute ->
  getVerifyTimestampSqlQuery scope build (input resolveParams) timestampAttribute =
    Normal sqlCheckQuery ->
  query (pgClient (context resolveParams)) (sql_compile sqlCheckQuery) = Normal rows ->
  Forall (fun row => truthy (ok row) = true) rows ->
  resolve timestampColumn scope build oldResolve resolveParams =
  (oldResolve resolveParams,
   {| queries := [sql_compile sqlCheckQuery]; resolved := [resolveParams] |}).
Proof.
  intros Htable Hrel Htag Hfind Hquery Hrows Hok.
  rewrite (resolve_guarded timestampColumn scope build oldResolve resolveParams
             table Htable timestampAttribute Hrel Htag Hfind).
  unfold guarded_outcome. rewrite Hquery; simpl. rewrite Hrows.
  by rewrite (forallb_Forall _ _ Hok).
Qed.

Lemma verified_call_runs_executor_once_witness :
  resolve "updated_at" (Sample.mutation Sample.post false) Sample.build
    Sample.executor (Sample.byKey 7 1000000) =
  (Normal (JsString "updated"),
   {| queries :=
        [{| text :=
              "  select $1 between (" +:+ escapeSqlIdentifier "updated_at" +:+
              " - '5 microsecond'::interval)" +:+ nl +:+
              "    and (" +:+ escapeSqlIdentifier "updated_at" +:+
              " + '5 microsecond'::interval) as ok" +:+ nl +:+
              "    from " +:+ escapeSqlIdentifier "app" +:+ "." +:+
              escapeSqlIdentifier "post" +:+ nl +:+
              "  where (" +:+ escapeSqlIdentifier "id" +:+ " = $2)" +:+ nl +:+
              "  for update";
            values := [JsDatetime 1000000; JsNumber 7] |}];
      resolved := [Sample.byKey 7 1000000] |}).
Proof.
  refine (verified_call_runs_executor_once "updated_at"
    (Sample.mutation Sample.post false) Sample.build Sample.executor
    (Sample.byKey 7 1000000) Sample.post Sample.updated_at _
    [{| ok := JsBoolean true |}] eq_refl eq_refl eq_refl eq_refl eq_refl _ _).
  - vm_compute. reflexivity.
  - repeat constructor.
Defined.

(** C1 (the code departs from it): the source documents the verification
    query as one "returning one or more rows", yet [verifyTimestamp] never
    looks at the number of rows it gets.  No row of [app.post] has id 9: the
    verification query is answered with no row, [every] holds of the empty
    answer, and the call does not fail with the conflict error.  It completes
    with the result of the wrapped resolver, which has been called. *)
Theorem zero_rows_reach_the_executor :
  let resolveParams := Sample.byKey 9 1000000 in
  let scope := Sample.mutation Sample.post false in
  let outcome :=
    resolve "updated_at" scope Sample.build Sample.executor resolveParams in
  (query (pgClient (context resolveParams)) ∘ sql_compile <$>
     getVerifyTimestampSqlQuery scope Sample.build (input resolveParams)
       Sample.updated_at) = Normal (Normal []) ∧
  outcome.1 = Normal (JsString "updated") ∧
  outcome.1 ≠ Throw (JsError "Mutation blocked due to conflict.") ∧
  input <$> resolved outcome.2 = [input resolveParams].
Proof.
  split; [by vm_compute|]. split; [by vm_compute|].
  split; [by vm_compute|]. by vm_compute.
Qed.

(** ** Compiled text *)

Lemma append_nil (s : string) : EmptyString +:+ s = s.
Proof. reflexivity. Qed.

Lemma append_cons (c : Ascii.ascii) (a b : string) :
  String c a +:+ b = String c (a +:+ b).
Proof. reflexivity. Qed.

Lemma append_assoc (a b c : string) : (a +:+ b) +:+ c = a +:+ (b +:+ c).
Proof.
  induction a as [|x a IH]; [done|]. by rewrite !append_cons, IH.
Qed.

Lemma append_length (a b : string) :
  String.length (a +:+ b) = (String.length a + String.length b)%nat.
Proof.
  induction a as [|x a IH]; [done|]. rewrite append_cons; simpl. by rewrite IH.
Qed.

(** Push the characters of literal prefixes out of the appends. *)
Ltac spell := repeat (rewrite append_cons || rewrite append_nil).

Lemma compile_from_app (n : nat) (a b : SQLQuery) :
  compile_from n (a ++ b) =
  ((compile_from n a).1 +:+ (compile_from (n + length (compile_from n a).2) b).1,
   (compile_from n a).2 ++ (compile_from (n + length (compile_from n a).2) b).2).
Proof.
  revert n. induction a as [|[t|names|v] a IH]; intros n; simpl.
  - rewrite Nat.add_0_r. by destruct (compile_from n b).
  - rewrite IH. destruct (compile_from n a) as [s vs]; simpl.
    by rewrite append_assoc.
  - rewrite IH. destruct (compile_from n a) as [s vs]; simpl.
    by rewrite append_assoc.
  - rewrite IH. destruct (compile_from (S n) a) as [s vs]; simpl.
    rewrite !append_assoc. by rewrite Nat.add_succ_r.
Qed.

(** ** Reading back what [sql_compile] writes *)

Section Primitives.
Import Postgres.

Lemma strip_app (prefix s : string) : strip prefix (prefix +:+ s) = Some s.
Proof.
  induction prefix as [|c prefix IH]; [done|].
  rewrite append_cons; simpl. by rewrite bool_decide_true.
Qed.

Lemma read_quoted_double (name rest : string) :
  unquoted rest ->
  read_quoted (double_quotes name +:+ dquote +:+ rest) = Some (name, rest).
Proof.
  intros Hrest. induction name as [|c name IH]; simpl.
  - unfold dquote. spell. simpl.
    destruct rest as [|c' rest]; [done|]. simpl in Hrest. by rewrite Hrest.
  - case_bool_decide as Hc; spell; simpl.
    + unfold is_dquote. rewrite !bool_decide_true by done.
      by rewrite IH.
    + unfold is_dquote. rewrite bool_decide_false by done.
      by rewrite IH.
Qed.

Lemma read_identifier_escape (name rest : string) :
  unquoted rest ->
  read_identifier (escapeSqlIdentifier name +:+ rest) = Some (name, rest).
Proof.
  intros Hrest. unfold escapeSqlIdentifier.
  rewrite !append_assoc. unfold dquote at 1. spell. simpl.
  by apply read_quoted_double.
Qed.

Lemma read_digits_uint (d : Decimal.uint) (rest : string) :
  undigit rest ->
  read_digits (NilEmpty.string_of_uint d +:+ rest) =
  (NilEmpty.string_of_uint d, rest).
Proof.
  intros Hrest.
  induction d as [|d IH|d IH|d IH|d IH|d IH|d IH|d IH|d IH|d IH|d IH];
    simpl; spell; simpl; try (by rewrite IH).
  destruct rest as [|c rest]; [done|]. simpl in *. by rewrite Hrest.
Qed.

Lemma to_uint_nonnil (n : nat) : Nat.to_uint n ≠ Decimal.Nil.
Proof.
  intros H. pose proof (Unsigned.of_to n) as Hn. rewrite H in Hn.
  simpl in Hn. subst n. discriminate H.
Qed.

Lemma read_number_decimal (n : nat) (rest : string) :
  undigit rest ->
  read_number (decimal n +:+ rest) = Some (n, rest).
Proof.
  intros Hrest. unfold read_number, decimal.
  rewrite read_digits_uint by done.
  pose proof (to_uint_nonnil n) as Hnil.
  replace (NilEmpty.string_of_uint (Nat.to_uint n))
    with (NilZero.string_of_uint (Nat.to_uint n))
    by (by destruct (Nat.to_uint n)).
  rewrite NilZero.usu by done. simpl.
  by rewrite Unsigned.of_to.
Qed.

End Primitives.

(** ** The builders compute the spelled-out condition *)

Lemma imap_lookup_zip {A B C} (f : A -> B -> C) (d : B) (l : list A) (k : list B) :
  length k = length l ->
  imap (fun idx x => f x (default d (k !! idx))) l =
  (fun '(x, y) => f x y) <$> zip l k.
Proof.
  revert k. induction l as [|x l IH]; intros [|y k] Hlen; simplify_eq/=; [done|].
  f_equal. by apply IH.
Qed.

Lemma condition_conjunction (scope : Scope) (build : Build)
    (input : gmap string JsValue) :
  (if isPgNodeMutation scope
   then getNodeMutationCondition scope build input
   else getMutationCondition scope build input) =
  conjunction build <$> keyValues scope build input.
Proof.
  unfold keyValues, getNodeMutationCondition, getMutationCondition.
  destruct (isPgNodeMutation scope).
  - destruct (pgFieldIntrospection scope) as [table|];
      cbn -[sql_fragment sql_join]; [|done].
    destruct (getTypeAndIdentifiersFromNodeId _ _) as [node|e];
      cbn -[sql_fragment sql_join]; [|done].
    case_bool_decide; [done|].
    destruct (PgClass.primaryKeyConstraint table) as [primaryKey|];
      cbn -[sql_fragment sql_join]; [|done].
    case_bool_decide as Hlen; [done|]. cbn -[sql_fragment sql_join].
    unfold conjunction. do 3 f_equal.
    rewrite (imap_lookup_zip
      (fun key val => sql_fragment [EmptyString; " = "; EmptyString]
         [sql_identifier [PgAttribute.name key];
          gql2pg build val (PgAttribute.type key) (PgAttribute.typeModifier key)]))
      by done.
    f_equal.
  - destruct (pgFieldConstraint scope) as [constraint|];
      cbn -[sql_fragment sql_join]; [|done].
    unfold conjunction. do 3 f_equal.
    by rewrite <- list_fmap_compose.
Qed.

(** ** The text of the verification query *)

Lemma compile_from_RAW (n : nat) (t : string) (q : SQLQuery) :
  compile_from n (RAW t :: q) =
  (t +:+ (compile_from n q).1, (compile_from n q).2).
Proof. simpl. by destruct (compile_from n q). Qed.

Lemma compile_from_IDENTIFIER (n : nat) (names : list string) (q : SQLQuery) :
  compile_from n (IDENTIFIER names :: q) =
  (join_dot (escapeSqlIdentifier <$> names) +:+ (compile_from n q).1,
   (compile_from n q).2).
Proof. simpl. by destruct (compile_from n q). Qed.

Lemma compile_from_VALUE (n : nat) (v : JsValue) (q : SQLQuery) :
  compile_from n (VALUE v :: q) =
  ("$" +:+ decimal (S n) +:+ (compile_from (S n) q).1,
   v :: (compile_from (S n) q).2).
Proof. simpl. by destruct (compile_from (S n) q). Qed.

Section Parameters.

Context (build : Build).
Hypothesis Hvalues : passes_parameters build.

Lemma comparison_nodes (key : PgAttribute.t) (val : JsValue) :
  sql_fragment [EmptyString; " = "; EmptyString] [
    sql_identifier [PgAttribute.name key];
    gql2pg build val (PgAttribute.type key) (PgAttribute.typeModifier key)] =
  [IDENTIFIER [PgAttribute.name key]; RAW " = "; VALUE val].
Proof. by rewrite Hvalues. Qed.

Lemma conjunction_nodes (comparisons : list (PgAttribute.t * JsValue)) :
  conjunction build comparisons =
  RAW "(" ::
  sql_join
    ((fun '(key, val) =>
        [IDENTIFIER [PgAttribute.name key]; RAW " = "; VALUE val]) <$> comparisons)
    ") and (" ++ [RAW ")"].
Proof.
  unfold conjunction, sql_fragment at 1. cbn [sql_query].
  rewrite !bool_decide_false by done. cbn [app].
  do 3 f_equal. apply list_fmap_ext. intros ? [key val] _. apply comparison_nodes.
Qed.

Lemma sql_join_more (item item' : SQLQuery) (items : list SQLQuery)
    (separator : string) :
  sql_join (item :: item' :: items) separator =
  item ++ RAW separator :: sql_join (item' :: items) separator.
Proof. reflexivity. Qed.

Lemma written_conditions_more (n : nat) (column column' : string)
    (columns : list string) (rest : string) :
  written_conditions n (column :: column' :: columns) rest =
  escapeSqlIdentifier column +:+ " = $" +:+ decimal (S n) +:+ ") and (" +:+
  written_conditions (S n) (column' :: columns) rest.
Proof. reflexivity. Qed.

(** Text and values of the comparisons, closing parenthesis included. *)
Lemma compile_comparisons (n : nat) (comparisons : list (PgAttribute.t * JsValue))
    (tail : SQLQuery) :
  compile_from n
    (sql_join
       ((fun '(key, val) =>
           [IDENTIFIER [PgAttribute.name key]; RAW " = "; VALUE val]) <$> comparisons)
       ") and (" ++ RAW ")" :: tail) =
  (written_conditions n (PgAttribute.name ∘ fst <$> comparisons)
     (compile_from (n + length comparisons) tail).1,
   (snd <$> comparisons) ++ (compile_from (n + length comparisons) tail).2).
Proof.
  revert n. induction comparisons as [|[key val] comparisons IH]; intros n.
  - simpl. rewrite Nat.add_0_r. by destruct (compile_from n tail).
  - destruct comparisons as [|[key' val'] comparisons].
    + cbn [fmap list_fmap sql_join app length compose fst snd written_conditions].
      rewrite compile_from_IDENTIFIER, compile_from_RAW, compile_from_VALUE,
        compile_from_RAW.
      cbn [fst snd fmap list_fmap join_dot]. by rewrite Nat.add_1_r.
    + specialize (IH (S n)).
      cbn [fmap list_fmap compose fst] in IH |- *.
      rewrite sql_join_more, written_conditions_more.
      cbn [app length compose fst snd].
      rewrite compile_from_IDENTIFIER, compile_from_RAW, compile_from_VALUE,
        compile_from_RAW, IH.
      cbn [fst snd fmap list_fmap join_dot length compose].
      cbn [length]. rewrite !Nat.add_succ_r. by cbn [Nat.add].
Qed.

(** The query built for a request whose comparisons are [comparisons], and
    what [sql_compile] makes of it. *)
Lemma verify_query_compiled (scope : Scope) (input : gmap string JsValue)
    (table : PgClass.t) (timestampAttribute : PgAttribute.t)
    (comparisons : list (PgAttribute.t * JsValue)) :
  pgFieldIntrospection scope = Some table ->
  keyValues scope build input = Normal comparisons ->
  ∃ sqlCheckQuery,
    getVerifyTimestampSqlQuery scope build input timestampAttribute =
      Normal sqlCheckQuery ∧
    sql_compile sqlCheckQuery =
      {| text :=
           written_statement (PgAttribute.name timestampAttribute)
             (PgNamespace.name (PgClass.namespace table)) (PgClass.name table)
             (PgAttribute.name ∘ fst <$> comparisons);
         values :=
           js_get input (inflection_column build timestampAttribute) ::
           (snd <$> comparisons) |}.
Proof.
  intros Htable Hkeys. unfold getVerifyTimestampSqlQuery.
  rewrite condition_conjunction, Hkeys, Htable.
  cbn [fmap completion_fmap mbind completion_bind read_of].
  eexists; split; [reflexivity|].
  rewrite Hvalues, conjunction_nodes. unfold sql_value, sql_identifier.
  cbn [sql_query]. rewrite !bool_decide_false by done.
  cbn [app]. rewrite <- app_assoc. cbn [app].
  unfold sql_compile.
  rewrite compile_from_RAW, compile_from_VALUE, compile_from_RAW,
    compile_from_IDENTIFIER, compile_from_RAW, compile_from_IDENTIFIER,
    compile_from_RAW, compile_from_IDENTIFIER, compile_from_RAW, compile_from_RAW,
    compile_comparisons.
  cbn [fst snd fmap list_fmap join_dot compile_from].
  f_equal; [|by rewrite app_nil_r].
  unfold written_statement. rewrite !append_assoc. reflexivity.
Qed.

End Parameters.

(** ** Reading the statement back *)

Section Reading.
Import Postgres.

Ltac literal := spell; vm_compute; first [reflexivity | exact I].

Lemma written_conditions_length (n : nat) (columns : list string) (rest : string) :
  (length columns <= String.length (written_conditions n columns rest))%nat.
Proof.
  revert n. induction columns as [|column columns IH]; intros n; [simpl; lia|].
  destruct columns as [|column' columns].
  - unfold written_conditions, escapeSqlIdentifier, dquote. spell. simpl. lia.
  - rewrite written_conditions_more. specialize (IH (S n)).
    rewrite !append_length. simpl in *. lia.
Qed.

Lemma read_conditions_written (fuel n : nat) (columns : list string) (rest : string) :
  columns ≠ [] ->
  (length columns <= fuel)%nat ->
  strip ") and (" (")" +:+ rest) = None ->
  read_conditions fuel (written_conditions n columns rest) =
  Some (imap (fun i column => (column, S (n + i))) columns, rest).
Proof.
  intros Hne Hfuel Hrest. revert n fuel Hfuel.
  induction columns as [|column columns IH]; intros n fuel Hfuel; [done|].
  destruct fuel as [|fuel]; [simpl in Hfuel; lia|].
  destruct columns as [|column' columns].
  - cbn [written_conditions read_conditions].
    rewrite read_identifier_escape by literal. cbn [mbind option_bind].
    rewrite strip_app. cbn [mbind option_bind].
    rewrite read_number_decimal by literal. cbn [mbind option_bind].
    rewrite Hrest, (strip_app ")"). cbn [mbind option_bind imap].
    by rewrite Nat.add_0_r.
  - rewrite written_conditions_more. cbn [read_conditions].
    rewrite read_identifier_escape by literal. cbn [mbind option_bind].
    rewrite strip_app. cbn [mbind option_bind].
    rewrite read_number_decimal by literal. cbn [mbind option_bind].
    rewrite strip_app.
    rewrite (IH ltac:(done) (S n) fuel) by (simpl in Hfuel |- *; lia).
    cbn [mbind option_bind]. rewrite (imap_cons _ column). rewrite Nat.add_0_r.
    do 3 f_equal. apply imap_ext. intros i c _. simpl. f_equal. lia.
Qed.

Lemma read_written_statement (column schema table : string) (columns : list string) :
  columns ≠ [] ->
  read_statement (written_statement column schema table columns) =
  Some {| probe := 1;
          lower := (column, 5%nat);
          upper := (column, 5%nat);
          relation := (schema, table);
          conditions := imap (fun i column => (column, S (S i))) columns;
          for_update := true |}.
Proof.
  intros Hne.
  assert (written_statement column schema table columns =
    "  select $" +:+ decimal 1 +:+ " between (" +:+
    escapeSqlIdentifier column +:+ " - '" +:+ decimal 5 +:+
    (" microsecond'::interval)" +:+ nl +:+ "    and (") +:+
    escapeSqlIdentifier column +:+ " + '" +:+ decimal 5 +:+
    (" microsecond'::interval) as ok" +:+ nl +:+ "    from ") +:+
    escapeSqlIdentifier schema +:+ "." +:+ escapeSqlIdentifier table +:+
    (nl +:+ "  where (") +:+
    written_conditions 1 columns (nl +:+ "  for update")) as -> by reflexivity.
  unfold read_statement.
  rewrite strip_app; cbn [mbind option_bind].
  rewrite read_number_decimal by literal; cbn [mbind option_bind].
  rewrite strip_app; cbn [mbind option_bind].
  rewrite read_identifier_escape by literal; cbn [mbind option_bind].
  rewrite strip_app; cbn [mbind option_bind].
  rewrite read_number_decimal by literal; cbn [mbind option_bind].
  rewrite strip_app; cbn [mbind option_bind].
  rewrite read_identifier_escape by literal; cbn [mbind option_bind].
  rewrite strip_app; cbn [mbind option_bind].
  rewrite read_number_decimal by literal; cbn [mbind option_bind].
  rewrite strip_app; cbn [mbind option_bind].
  rewrite read_identifier_escape by literal; cbn [mbind option_bind].
  rewrite strip_app; cbn [mbind option_bind].
  rewrite read_identifier_escape by literal; cbn [mbind option_bind].
  rewrite strip_app; cbn [mbind option_bind].
  rewrite read_conditions_written;
    [|done|apply written_conditions_length|reflexivity].
  cbn [mbind option_bind]. reflexivity.
Qed.

End Reading.

(** ** Executing it *)

Section Execution.
Import Postgres.

Lemma bind_conditions_written (before : list JsValue)
    (comparisons : list (PgAttribute.t * JsValue)) :
  bind_conditions (before ++ (snd <$> comparisons))
    (imap (fun i column => (column, S (length before + i)))
       (PgAttribute.name ∘ fst <$> comparisons)) =
  Some (columnValues comparisons).
Proof.
  unfold bind_conditions, columnValues.
  revert before. induction comparisons as [|[key val] comparisons IH]; intros before.
  - done.
  - cbn [fmap list_fmap compose fst snd]. rewrite imap_cons.
    cbn [mapM mbind option_bind parameter].
    rewrite Nat.add_0_r, list_lookup_middle by done.
    cbn [mbind option_bind].
    specialize (IH (before ++ [val])).
    rewrite <- app_assoc in IH. cbn [app] in IH.
    erewrite imap_ext; [rewrite IH|]; [done|].
    intros i column _. cbn [compose]. rewrite length_app. simpl.
    f_equal. f_equal. lia.
Qed.

Lemma verdict_true (client : JsValue) (st : Statement) (row : StoredRow)
    (name : string) :
  lower st = (name, 5%nat) ->
  upper st = (name, 5%nat) ->
  ok_of client st row = JsBoolean true ↔
  ∃ c v, client = JsDatetime c ∧ column row name = JsDatetime v ∧
         v - 5 <= c <= v + 5.
Proof.
  intros Hlower Hupper. unfold ok_of. rewrite Hupper, Hlower. cbn [fst snd].
  unfold between, sql_le, shift, sql_and, to_js.
  destruct client as [| |b|z|s|c]; destruct (column row _) as [| |b'|z'|s'|v];
    try (split; [discriminate | by intros (? & ? & ? & ? & ?)]).
  change (Z.of_nat 5) with 5.
  destruct (Z.leb_spec (v + - (5)) c), (Z.leb_spec c (v + 5));
    simpl;
    (split; [intros ?; simplify_eq; exists c, v; repeat split; lia
            |intros (? & ? & ? & ? & ?); simplify_eq; first [done | lia]]).
Qed.

Context (db : Database) (build : Build).
Hypothesis Hvalues : passes_parameters build.

(** The answer to the verification query of a request. *)
Lemma execute_verification (scope : Scope) (input : gmap string JsValue)
    (table : PgClass.t) (timestampAttribute : PgAttribute.t)
    (comparisons : list (PgAttribute.t * JsValue)) (stored : list StoredRow) :
  pgFieldIntrospection scope = Some table ->
  keyValues scope build input = Normal comparisons ->
  comparisons ≠ [] ->
  db !! (PgNamespace.name (PgClass.namespace table), PgClass.name table) =
    Some stored ->
  ∃ sqlCheckQuery st,
    getVerifyTimestampSqlQuery scope build input timestampAttribute =
      Normal sqlCheckQuery ∧
    lower st = (PgAttribute.name timestampAttribute, 5%nat) ∧
    upper st = (PgAttribute.name timestampAttribute, 5%nat) ∧
    execute db (sql_compile sqlCheckQuery) =
      Normal
        {| rows :=
             (fun row =>
                {| ok := ok_of (js_get input (inflection_column build timestampAttribute))
                           st row |}) <$>
             List.filter (satisfies (columnValues comparisons)) stored;
           locked := List.filter (satisfies (columnValues comparisons)) stored |}.
Proof.
  intros Htable Hkeys Hne Hstored.
  destruct (verify_query_compiled build Hvalues scope input table
              timestampAttribute comparisons Htable Hkeys) as (q & Hq & Hcompiled).
  exists q,
    {| probe := 1;
       lower := (PgAttribute.name timestampAttribute, 5%nat);
       upper := (PgAttribute.name timestampAttribute, 5%nat);
       relation := (PgNamespace.name (PgClass.namespace table), PgClass.name table);
       conditions :=
         imap (fun i column => (column, S (S i)))
           (PgAttribute.name ∘ fst <$> comparisons);
       for_update := true |}.
  do 3 (split; [done|]).
  unfold execute. rewrite Hcompiled. cbn [text values].
  rewrite read_written_statement by (by destruct comparisons).
  cbn [relation probe conditions for_update lower upper].
  cbn [relation probe conditions for_update lower upper]. rewrite Hstored.
  cbn [parameter lookup list_lookup].
  pose proof (bind_conditions_written
    [js_get input (inflection_column build timestampAttribute)] comparisons) as Hbind.
  cbn [app length Nat.add] in Hbind. rewrite Hbind.
  done.
Qed.

End Execution.

(** ** The locked comparison *)

(** C6: under a host that passes values as parameters, the verification
    query is answered with one row per stored row that satisfies the
    row-locating condition, and the [ok] of such a row is [true] exactly when
    the version sent by the client and the stored version are both
    timestamps and the client's lies between the stored one minus 5
    microseconds and the stored one plus 5 microseconds, bounds included. *)
Theorem ok_iff_within_five_microseconds (db : Postgres.Database) (build : Build)
    (scope : Scope) (input : gmap string JsValue) (table : PgClass.t)
    (timestampAttribute : PgAttribute.t)
    (comparisons : list (PgAttribute.t * JsValue))
    (stored : list Postgres.StoredRow) :
  passes_parameters build ->
  pgFieldIntrospection scope = Some table ->
  keyValues scope build input = Normal comparisons ->
  comparisons ≠ [] ->
  db !! (PgNamespace.name (PgClass.namespace table), PgClass.name table) =
    Some stored ->
  ∃ sqlCheckQuery answer,
    getVerifyTimestampSqlQuery scope build input timestampAttribute =
      Normal sqlCheckQuery ∧
    Postgres.execute db (sql_compile sqlCheckQuery) = Normal answer ∧
    Forall2
      (fun row result =>
         ok result = JsBoolean true ↔
         ∃ client version,
           js_get input (inflection_column build timestampAttribute) =
             JsDatetime client ∧
           Postgres.column row (PgAttribute.name timestampAttribute) =
             JsDatetime version ∧
           version - 5 <= client <= version + 5)
      (List.filter (Postgres.satisfies (columnValues comparisons)) stored)
      (Postgres.rows answer).
Proof.
  intros Hvalues Htable Hkeys Hne Hstored.
  destruct (execute_verification db build Hvalues scope input table
              timestampAttribute comparisons stored Htable Hkeys Hne Hstored)
    as (q & st & Hq & Hlower & Hupper & Hexecute).
  eexists q, _. split; [done|]. split; [done|].
  cbn [Postgres.rows]. apply Forall2_fmap_r, Forall_Forall2_diag, Forall_forall.
  intros row _. cbn [ok]. by apply verdict_true.
Qed.

Lemma ok_iff_within_five_microseconds_witness :
  ∃ sqlCheckQuery answer,
    getVerifyTimestampSqlQuery (Sample.mutation Sample.post false) Sample.build
      (input (Sample.byKey 7 1000000)) Sample.updated_at = Normal sqlCheckQuery ∧
    Postgres.execute Sample.db (sql_compile sqlCheckQuery) = Normal answer ∧
    Forall2
      (fun row result =>
         ok result = JsBoolean true ↔
         ∃ client version,
           js_get (input (Sample.byKey 7 1000000))
             (inflection_column Sample.build Sample.updated_at) = JsDatetime client ∧
           Postgres.column row (PgAttribute.name Sample.updated_at) =
             JsDatetime version ∧
           version - 5 <= client <= version + 5)
      (List.filter
         (Postgres.satisfies (columnValues [(Sample.id_, JsNumber 7)]))
         [Sample.stored 7 1000004; Sample.stored 8 2000000])
      (Postgres.rows answer).
Proof.
  exact (ok_iff_within_five_microseconds Sample.db Sample.build
    (Sample.mutation Sample.post false) (input (Sample.byKey 7 1000000))
    Sample.post Sample.updated_at [(Sample.id_, JsNumber 7)]
    [Sample.stored 7 1000004; Sample.stored 8 2000000]
    (fun _ _ _ => eq_refl) eq_refl eq_refl ltac:(discriminate) eq_refl).
Defined.

Lemma truthy_to_js (verdict : option bool) :
  truthy (Postgres.to_js verdict) = true ↔ Postgres.to_js verdict = JsBoolean true.
Proof. destruct verdict as [[]|]; simpl; split; congruence. Qed.

Lemma forallb_refuted {A} (f : A -> bool) (l : list A) (x : A) :
  In x l -> f x = false -> forallb f l = false.
Proof.
  intros Hin Hx. destruct (forallb f l) eqn:Hall; [|done].
  rewrite forallb_forall in Hall. by rewrite (Hall x Hin) in Hx.
Qed.

(** C2: on a guarded call against the database, under a host that passes
    values as parameters, if some stored row satisfies the row-locating
    condition and its version differs from the version sent by the client by
    more than 5 microseconds, then [verifyTimestamp] throws the conflict
    error and so does the call; the verification query is the only thing
    sent, and the wrapped resolver is not called. *)
Theorem conflicting_version_blocks_mutation (timestampColumn : string)
    (db : Postgres.Database) (scope : Scope) (build : Build)
    (oldResolve : Resolver) (resolveParams : ResolveParams)
    (table : PgClass.t) (timestampAttribute : PgAttribute.t)
    (comparisons : list (PgAttribute.t * JsValue))
    (stored : list Postgres.StoredRow) (row : Postgres.StoredRow)
    (client version : Z) :
  passes_parameters build ->
  pgClient (context resolveParams) = Postgres.connect db ->
  pgFieldIntrospection scope = Some table ->
  isRelevantMutation scope = true ->
  truthy (disableSafeUpdateAndDelete table) = false ->
  find_attribute timestampColumn (PgClass.attributes table) = Some timestampAttribute ->
  keyValues scope build (input resolveParams) = Normal comparisons ->
  comparisons ≠ [] ->
  db !! (PgNamespace.name (PgClass.namespace table), PgClass.name table) =
    Some stored ->
  row ∈ stored ->
  Postgres.satisfies (columnValues comparisons) row = true ->
  js_get (input resolveParams) (inflection_column build timestampAttribute) =
    JsDatetime client ->
  Postgres.column row (PgAttribute.name timestampAttribute) = JsDatetime version ->
  5 < Z.abs (client - version) ->
  ∃ sqlCheckQuery,
    getVerifyTimestampSqlQuery scope build (input resolveParams) timestampAttribute =
      Normal sqlCheckQuery ∧
    verifyTimestamp scope build (input resolveParams)
      (pgClient (context resolveParams)) timestampAttribute idle =
      (Throw (JsError "Mutation blocked due to conflict."),
       {| queries := [sql_compile sqlCheckQuery]; resolved := [] |}) ∧
    resolve timestampColumn scope build oldResolve resolveParams =
      (Throw (JsError "Mutation blocked due to conflict."),
       {| queries := [sql_compile sqlCheckQuery]; resolved := [] |}).
Proof.
  intros Hvalues Hclient Htable Hrel Htag Hfind Hkeys Hne Hstored Hrow Hsat
    Hsent Hversion Hfar.
  destruct (execute_verification db build Hvalues scope (input resolveParams)
              table timestampAttribute comparisons stored Htable Hkeys Hne Hstored)
    as (q & st & Hq & Hlower & Hupper & Hexecute).
  exists q. split; [done|].
  rewrite Hsent in Hexecute.
  assert (forallb (fun result => truthy (ok result))
            ((fun row => {| ok := Postgres.ok_of (JsDatetime client) st row |})
               <$> List.filter (Postgres.satisfies (columnValues comparisons)) stored)
          = false) as Hblocked.
  { apply forallb_refuted with
      {| ok := Postgres.ok_of (JsDatetime client) st row |}.
    - apply (in_map (fun row => {| ok := Postgres.ok_of (JsDatetime client) st row |})).
      apply filter_In. split; [by apply list_elem_of_In | done].
    - cbn [ok]. apply not_true_is_false. unfold Postgres.ok_of.
      rewrite truthy_to_js.
      intros (c & v & Hc & Hv & Hbounds)%(verdict_true _ _ _ _ Hlower Hupper).
      rewrite Hversion in Hv. simplify_eq. lia. }
  split.
  - unfold verifyTimestamp, mbind, M_bind, lift, pgClient_query, throw, lift, idle.
    rewrite Hq. cbn [queries resolved app]. rewrite Hclient.
    cbn [query Postgres.connect]. rewrite Hexecute.
    cbn [fmap completion_fmap Postgres.rows]. by rewrite Hblocked.
  - rewrite (resolve_guarded timestampColumn scope build oldResolve resolveParams
               table Htable timestampAttribute Hrel Htag Hfind).
    unfold guarded_outcome. rewrite Hq, Hclient.
    cbn [query Postgres.connect]. rewrite Hexecute.
    cbn [fmap completion_fmap Postgres.rows]. by rewrite Hblocked.
Qed.

Lemma conflicting_version_blocks_mutation_witness :
  ∃ sqlCheckQuery,
    getVerifyTimestampSqlQuery (Sample.mutation Sample.post false) Sample.build
      (input (Sample.byKey 7 1000010)) Sample.updated_at = Normal sqlCheckQuery ∧
    verifyTimestamp (Sample.mutation Sample.post false) Sample.build
      (input (Sample.byKey 7 1000010))
      (pgClient (context (Sample.byKey 7 1000010))) Sample.updated_at idle =
      (Throw (JsError "Mutation blocked due to conflict."),
       {| queries := [sql_compile sqlCheckQuery]; resolved := [] |}) ∧
    resolve "updated_at" (Sample.mutation Sample.post false) Sample.build
      Sample.executor (Sample.byKey 7 1000010) =
      (Throw (JsError "Mutation blocked due to conflict."),
       {| queries := [sql_compile sqlCheckQuery]; resolved := [] |}).
Proof.
  refine (conflicting_version_blocks_mutation "updated_at" Sample.db
    (Sample.mutation Sample.post false) Sample.build Sample.executor
    (Sample.byKey 7 1000010) Sample.post Sample.updated_at
    [(Sample.id_, JsNumber 7)]
    [Sample.stored 7 1000004; Sample.stored 8 2000000] (Sample.stored 7 1000004)
    1000010 1000004
    (fun _ _ _ => eq_refl) eq_refl eq_refl eq_refl eq_refl eq_refl eq_refl
    _ eq_refl _ eq_refl eq_refl eq_refl eq_refl).
  - discriminate.
  - apply list_elem_of_In. left. reflexivity.
Defined.

(** ** The row lock *)

Lemma append_empty (s : string) : s +:+ EmptyString = s.
Proof. induction s as [|c s IH]; [done|]. by rewrite append_cons, IH. Qed.

Lemma text_sql_compile (sql : SQLQuery) :
  text (sql_compile sql) = (compile_from 0 sql).1.
Proof. unfold sql_compile. by destruct (compile_from 0 sql). Qed.

Lemma compiled_where_text (selection condition : SQLQuery) (where_ locking : string) :
  text (sql_compile (selection ++ RAW where_ :: condition ++ [RAW locking])) =
  (compile_from 0 selection).1 +:+ where_ +:+
  (compile_from (length (compile_from 0 selection).2) condition).1 +:+ locking.
Proof.
  rewrite text_sql_compile, compile_from_app, compile_from_RAW, compile_from_app.
  cbn [fst snd compile_from Nat.add]. by rewrite append_empty.
Qed.

(** C3: every query that [getVerifyTimestampSqlQuery] builds is a select
    followed by [where], the row-locating condition and, last, [for update],
    and so is its compiled text; [verifyTimestamp] sends exactly this query,
    whatever the answer; and the database answers it by locking exactly the
    stored rows that satisfy the condition, one answer row per locked row. *)
Theorem verification_query_locks_rows (scope : Scope) (build : Build)
    (input : gmap string JsValue) (timestampAttribute : PgAttribute.t)
    (sqlCheckQuery : SQLQuery) :
  getVerifyTimestampSqlQuery scope build input timestampAttribute =
    Normal sqlCheckQuery ->
  (∃ selection condition,
     (if isPgNodeMutation scope
      then getNodeMutationCondition scope build input
      else getMutationCondition scope build input) = Normal condition ∧
     sqlCheckQuery =
       selection ++ RAW (nl +:+ "  where ") :: condition ++
       [RAW (nl +:+ "  for update")] ∧
     text (sql_compile sqlCheckQuery) =
       (compile_from 0 selection).1 +:+ nl +:+ "  where " +:+
       (compile_from (length (compile_from 0 selection).2) condition).1 +:+
       nl +:+ "  for update") ∧
  (∀ pgClient trace,
     (verifyTimestamp scope build input pgClient timestampAttribute trace).2 =
     {| queries := queries trace ++ [sql_compile sqlCheckQuery];
        resolved := resolved trace |}) ∧
  (∀ db table comparisons stored,
     passes_parameters build ->
     pgFieldIntrospection scope = Some table ->
     keyValues scope build input = Normal comparisons ->
     comparisons ≠ [] ->
     db !! (PgNamespace.name (PgClass.namespace table), PgClass.name table) =
       Some stored ->
     ∃ answer,
       Postgres.execute db (sql_compile sqlCheckQuery) = Normal answer ∧
       Postgres.locked answer =
         List.filter (Postgres.satisfies (columnValues comparisons)) stored ∧
       length (Postgres.rows answer) = length (Postgres.locked answer)).
Proof.
  intros Hquery. split; [|split].
  - unfold getVerifyTimestampSqlQuery in Hquery.
    destruct (if isPgNodeMutation scope then _ else _) as [condition|];
      [|discriminate].
    cbn [mbind completion_bind] in Hquery.
    destruct (pgFieldIntrospection scope) as [table|]; [|discriminate].
    cbn [mbind completion_bind read_of sql_query] in Hquery.
    rewrite !bool_decide_false in Hquery by done.
    injection Hquery as <-.
    exists (RAW "  select " ::
            gql2pg build (js_get input (inflection_column build timestampAttribute))
              (PgAttribute.type timestampAttribute)
              (PgAttribute.typeModifier timestampAttribute) ++
            [RAW " between ("; IDENTIFIER [PgAttribute.name timestampAttribute];
             RAW (" - '5 microsecond'::interval)" +:+ nl +:+ "    and (");
             IDENTIFIER [PgAttribute.name timestampAttribute];
             RAW (" + '5 microsecond'::interval) as ok" +:+ nl +:+ "    from ");
             IDENTIFIER [PgNamespace.name (PgClass.namespace table);
                         PgClass.name table]]),
      condition.
    split; [done|].
    match goal with |- ?shape ∧ _ => assert shape as Hshape end.
    { cbn [app]. by rewrite <- !app_assoc. }
    split; [done|]. rewrite Hshape, compiled_where_text.
    by rewrite !append_assoc.
  - intros pgClient trace.
    unfold verifyTimestamp, mbind, M_bind, lift, pgClient_query, throw, lift.
    rewrite Hquery. destruct (query pgClient _) as [rows|e]; [|done].
    by destruct (forallb _ rows).
  - intros db table comparisons stored Hvalues Htable Hkeys Hne Hstored.
    destruct (execute_verification db build Hvalues scope input table
                timestampAttribute comparisons stored Htable Hkeys Hne Hstored)
      as (q & st & Hq & _ & _ & Hexecute).
    rewrite Hquery in Hq. injection Hq as <-.
    eexists. split; [exact Hexecute|]. split; [done|].
    cbn [Postgres.rows Postgres.locked]. by rewrite length_fmap.
Qed.

Lemma verification_query_locks_rows_witness :
  text (sql_compile (Sample.verification 7 1000000)) =
    written_statement "updated_at" "app" "post" ["id"] ∧
  ∃ answer,
    Postgres.execute Sample.db (sql_compile (Sample.verification 7 1000000)) =
      Normal answer ∧
    Postgres.locked answer = [Sample.stored 7 1000004] ∧
    length (Postgres.rows answer) = 1%nat.
Proof.
  destruct (verification_query_locks_rows (Sample.mutation Sample.post false)
    Sample.build (input (Sample.byKey 7 1000000)) Sample.updated_at
    (Sample.verification 7 1000000) eq_refl) as (_ & _ & Hlocks).
  split; [reflexivity|].
  destruct (Hlocks Sample.db Sample.post [(Sample.id_, JsNumber 7)]
    [Sample.stored 7 1000004; Sample.stored 8 2000000]
    (fun _ _ _ => eq_refl) eq_refl eq_refl ltac:(discriminate) eq_refl)
    as (answer & Hexecute & Hlocked & Hrows).
  exists answer. split; [exact Hexecute|]. split; [exact Hlocked|].
  rewrite Hrows, Hlocked. reflexivity.
Defined.

(** * Further properties of the plugin *)

(** ** Which calls are guarded *)

(** X1: a field that is not a root update or delete mutation resolves
    exactly as before, whatever its scope carries: the opt-out tag is not
    even read, so a scope without any table is fine. *)
Theorem irrelevant_field_passes_through (timestampColumn : string) (scope : Scope)
    (build : Build) (oldResolve : Resolver) (resolveParams : ResolveParams) :
  isRelevantMutation scope = false ->
  VerifyTimestampFilter scope build = Normal None ∧
  resolve timestampColumn scope build oldResolve resolveParams =
  (oldResolve resolveParams, {| queries := []; resolved := [resolveParams] |}).
Proof.
  intros Hrel.
  assert (VerifyTimestampFilter scope build = Normal None) as Hfilter.
  { unfold VerifyTimestampFilter. by rewrite Hrel. }
  split; [done|]. by apply resolve_unfiltered.
Qed.

Lemma irrelevant_field_passes_through_witness :
  resolve "updated_at" Cases.query_field Sample.build Sample.executor
    (Sample.byKey 7 0) =
  (Normal (JsString "updated"),
   {| queries := []; resolved := [Sample.byKey 7 0] |}).
Proof.
  exact (proj2 (irrelevant_field_passes_through "updated_at" Cases.query_field
    Sample.build Sample.executor (Sample.byKey 7 0) eq_refl)).
Defined.

(** X2: the fields hook reads the attributes of [scope.pgIntrospection]
    before it looks at the kind of input type: on a scope without a table it
    throws a TypeError, also for an input type that is neither an update nor
    a delete input. *)
Theorem fields_hook_needs_table (timestampColumn : string) (fields : Fields)
    (build : Build) (ctx : HookContext.t) :
  pgIntrospection (HookContext.scope ctx) = None ->
  AddTimestampFieldPlugin timestampColumn fields build ctx =
  Throw (JsTypeError "Cannot read property 'attributes' of undefined").
Proof.
  intros Hintro. unfold AddTimestampFieldPlugin. by rewrite Hintro.
Qed.

Lemma fields_hook_needs_table_witness :
  AddTimestampFieldPlugin "updated_at" Sample.fields Sample.build
    (Sample.hook Cases.interval_input) =
  Throw (JsTypeError "Cannot read property 'attributes' of undefined").
Proof.
  exact (fields_hook_needs_table "updated_at" Sample.fields Sample.build
    (Sample.hook Cases.interval_input) eq_refl).
Defined.

(** X3: the opt-out tag is read for its truthiness only.  Any non-empty
    string opts the table out, the text [false] included: the fields hook
    returns the fields it was given and calls are not verified. *)
Theorem any_tag_text_opts_out (timestampColumn : string) (table : PgClass.t)
    (text : string) :
  PgClass.tags table !! "disableSafeUpdateAndDelete" = Some (JsString text) ->
  text ≠ EmptyString ->
  (∀ fields build ctx,
     pgIntrospection (HookContext.scope ctx) = Some table ->
     pgFieldIntrospection (HookContext.scope ctx) = None ->
     AddTimestampFieldPlugin timestampColumn fields build ctx = Normal fields) ∧
  (∀ scope build oldResolve resolveParams,
     pgFieldIntrospection scope = Some table ->
     omit scope = Normal true ∧
     resolve timestampColumn scope build oldResolve resolveParams =
     (oldResolve resolveParams, {| queries := []; resolved := [resolveParams] |})).
Proof.
  intros Htag Htext.
  assert (truthy (disableSafeUpdateAndDelete table) = true) as Htruthy.
  { unfold disableSafeUpdateAndDelete, js_get. rewrite Htag; simpl.
    by rewrite bool_decide_false. }
  split.
  - intros fields build ctx Hintro Hfield. unfold AddTimestampFieldPlugin.
    rewrite Hintro; simpl.
    assert (omit (HookContext.scope ctx) = Normal true) as ->.
    { unfold omit. by rewrite Hfield, Hintro; simpl; rewrite Htruthy. }
    by destruct (isPgUpdateInputType (HookContext.scope ctx)),
      (isPgDeleteInputType (HookContext.scope ctx)).
  - intros scope build oldResolve resolveParams Htable. split.
    + by rewrite (omit_field_table scope table Htable), Htruthy.
    + apply resolve_unfiltered. by eapply filter_opted_out.
Qed.

Lemma any_tag_text_opts_out_witness :
  resolve "updated_at" (Sample.mutation Cases.tagged_false false) Sample.build
    Sample.executor (Sample.byKey 7 0) =
  (Normal (JsString "updated"),
   {| queries := []; resolved := [Sample.byKey 7 0] |}).
Proof.
  refine (proj2 (proj2 (any_tag_text_opts_out "updated_at" Cases.tagged_false
    "false" eq_refl _) (Sample.mutation Cases.tagged_false false) Sample.build
    Sample.executor (Sample.byKey 7 0) eq_refl)).
  discriminate.
Defined.

(** ** What a call can do *)

(** X4: whatever the scope, the host and the database client do, one call
    sends at most one query and calls the wrapped resolver at most once; when
    it calls it, it is with the arguments of the call and the call completes
    as the resolver does; when it does not, the call fails. *)
Theorem resolver_called_at_most_once (timestampColumn : string) (scope : Scope)
    (build : Build) (oldResolve : Resolver) (resolveParams : ResolveParams) :
  let outcome := resolve timestampColumn scope build oldResolve resolveParams in
  (length (queries outcome.2) <= 1)%nat ∧
  ((resolved outcome.2 = [resolveParams] ∧ outcome.1 = oldResolve resolveParams) ∨
   (resolved outcome.2 = [] ∧ ∃ e, outcome.1 = Throw e)).
Proof.
  unfold resolve, makeVerifyTimestampPlugin, makeWrapResolversPlugin.
  destruct (VerifyTimestampFilter scope build) as [[[scope' build']|]|e];
    cbn [mbind completion_bind].
  - unfold VerifyTimestampWrapper, mbind, M_bind, lift.
    destruct (pgFieldIntrospection scope') as [table|]; cbn [read_of fst snd].
    + destruct (find_attribute timestampColumn (PgClass.attributes table))
        as [timestampAttribute|].
      * unfold verifyTimestamp, mbind, M_bind, lift, pgClient_query, throw, lift.
        destruct (getVerifyTimestampSqlQuery _ _ _ _) as [q|e]; cbn.
        -- destruct (query _ _) as [rows|e]; cbn.
           ++ destruct (forallb _ rows); cbn; (split; [lia|]); eauto.
           ++ split; [lia|]; eauto.
        -- split; [lia|]; eauto.
      * cbn. split; [lia|]; eauto.
    + cbn. split; [lia|]; eauto.
  - cbn. split; [lia|]; eauto.
  - cbn. split; [lia|]; eauto.
Qed.

(** X5: when the database client fails on the verification query, a guarded
    call fails with the client's error, unchanged; the query is the only
    thing sent and the wrapped resolver is not called. *)
Theorem query_failure_aborts (timestampColumn : string) (scope : Scope)
    (build : Build) (oldResolve : Resolver) (resolveParams : ResolveParams)
    (table : PgClass.t) (timestampAttribute : PgAttribute.t)
    (sqlCheckQuery : SQLQuery) (e : exn) :
  pgFieldIntrospection scope = Some table ->
  isRelevantMutation scope = true ->
  truthy (disableSafeUpdateAndDelete table) = false ->
  find_attribute timestampColumn (PgClass.attributes table) = Some timestampAttribute ->
  getVerifyTimestampSqlQuery scope build (input resolveParams) timestampAttribute =
    Normal sqlCheckQuery ->
  query (pgClient (context resolveParams)) (sql_compile sqlCheckQuery) = Throw e ->
  resolve timestampColumn scope build oldResolve resolveParams =
  (Throw e, {| queries := [sql_compile sqlCheckQuery]; resolved := [] |}).
Proof.
  intros Htable Hrel Htag Hfind Hquery Hfail.
  rewrite (resolve_guarded timestampColumn scope build oldResolve resolveParams
             table Htable timestampAttribute Hrel Htag Hfind).
  unfold guarded_outcome. by rewrite Hquery; simpl; rewrite Hfail.
Qed.

Lemma query_failure_aborts_witness :
  resolve "updated_at" (Sample.mutation Sample.post false) Sample.build
    Sample.executor (Cases.byKey Cases.offline 7 1000000) =
  (Throw (HostFailure "Connection terminated unexpectedly"),
   {| queries := [sql_compile (Sample.verification 7 1000000)]; resolved := [] |}).
Proof.
  exact (query_failure_aborts "updated_at" (Sample.mutation Sample.post false)
    Sample.build Sample.executor (Cases.byKey Cases.offline 7 1000000)
    Sample.post Sample.updated_at (Sample.verification 7 1000000)
    (HostFailure "Connection terminated unexpectedly")
    eq_refl eq_refl eq_refl eq_refl eq_refl eq_refl).
Defined.

(** X6: in node mode, when the node identifier cannot be decoded, condition
    building fails with the decoder's error and so does a guarded call,
    before any query is sent or the wrapped resolver is called. *)
Theorem undecodable_node_id_aborts (timestampColumn : string) (scope : Scope)
    (build : Build) (oldResolve : Resolver) (resolveParams : ResolveParams)
    (table : PgClass.t) (timestampAttribute : PgAttribute.t) (e : exn) :
  pgFieldIntrospection scope = Some table ->
  isRelevantMutation scope = true ->
  isPgNodeMutation scope = true ->
  truthy (disableSafeUpdateAndDelete table) = false ->
  find_attribute timestampColumn (PgClass.attributes table) = Some timestampAttribute ->
  getTypeAndIdentifiersFromNodeId build
    (js_get (input resolveParams) (nodeIdFieldName build)) = Throw e ->
  getNodeMutationCondition scope build (input resolveParams) = Throw e ∧
  resolve timestampColumn scope build oldResolve resolveParams =
  (Throw e, {| queries := []; resolved := [] |}).
Proof.
  intros Htable Hrel Hmode Htag Hfind Hdecode.
  assert (getNodeMutationCondition scope build (input resolveParams) = Throw e)
    as Hcond.
  { unfold getNodeMutationCondition. rewrite Htable; simpl. by rewrite Hdecode. }
  split; [done|].
  eapply resolve_condition_throws; eauto. by rewrite Hmode.
Qed.

Lemma undecodable_node_id_aborts_witness :
  resolve "updated_at" (Sample.mutation Sample.post true) Sample.build
    Sample.executor (Sample.byNodeId "not a node id" 1000000) =
  (Throw (HostFailure "Unexpected token in JSON"),
   {| queries := []; resolved := [] |}).
Proof.
  exact (proj2 (undecodable_node_id_aborts "updated_at"
    (Sample.mutation Sample.post true) Sample.build Sample.executor
    (Sample.byNodeId "not a node id" 1000000) Sample.post Sample.updated_at
    (HostFailure "Unexpected token in JSON")
    eq_refl eq_refl eq_refl eq_refl eq_refl eq_refl)).
Defined.

(** ** The decision against the database *)

Lemma forallb_fmap {A B} (f : B -> bool) (g : A -> B) (l : list A) :
  forallb f (g <$> l) = forallb (fun x => f (g x)) l.
Proof.
  induction l as [|x l IH]; [done|].
  rewrite fmap_cons. cbn [forallb]. by rewrite IH.
Qed.

(** A guarded call against the database, by the verdicts of the rows the
    condition selects. *)
Lemma resolve_against_database (timestampColumn : string)
    (db : Postgres.Database) (scope : Scope) (build : Build)
    (oldResolve : Resolver) (resolveParams : ResolveParams)
    (table : PgClass.t) (timestampAttribute : PgAttribute.t)
    (comparisons : list (PgAttribute.t * JsValue))
    (stored : list Postgres.StoredRow) :
  passes_parameters build ->
  pgClient (context resolveParams) = Postgres.connect db ->
  pgFieldIntrospection scope = Some table ->
  isRelevantMutation scope = true ->
  truthy (disableSafeUpdateAndDelete table) = false ->
  find_attribute timestampColumn (PgClass.attributes table) = Some timestampAttribute ->
  keyValues scope build (input resolveParams) = Normal comparisons ->
  comparisons ≠ [] ->
  db !! (PgNamespace.name (PgClass.namespace table), PgClass.name table) =
    Some stored ->
  ∃ sqlCheckQuery st,
    getVerifyTimestampSqlQuery scope build (input resolveParams) timestampAttribute =
      Normal sqlCheckQuery ∧
    Postgres.lower st = (PgAttribute.name timestampAttribute, 5%nat) ∧
    Postgres.upper st = (PgAttribute.name timestampAttribute, 5%nat) ∧
    resolve timestampColumn scope build oldResolve resolveParams =
      if forallb
           (fun row =>
              truthy (Postgres.ok_of
                        (js_get (input resolveParams)
                           (inflection_column build timestampAttribute)) st row))
           (List.filter (Postgres.satisfies (columnValues comparisons)) stored)
      then (oldResolve resolveParams,
            {| queries := [sql_compile sqlCheckQuery]; resolved := [resolveParams] |})
      else (Throw (JsError "Mutation blocked due to conflict."),
            {| queries := [sql_compile sqlCheckQuery]; resolved := [] |}).
Proof.
  intros Hvalues Hclient Htable Hrel Htag Hfind Hkeys Hne Hstored.
  destruct (execute_verification db build Hvalues scope (input resolveParams)
              table timestampAttribute comparisons stored Htable Hkeys Hne Hstored)
    as (q & st & Hq & Hlower & Hupper & Hexecute).
  exists q, st. do 3 (split; [done|]).
  rewrite (resolve_guarded timestampColumn scope build oldResolve resolveParams
             table Htable timestampAttribute Hrel Htag Hfind).
  unfold guarded_outcome. rewrite Hq, Hclient.
  cbn [query Postgres.connect]. rewrite Hexecute.
  cbn [fmap completion_fmap Postgres.rows]. by rewrite forallb_fmap.
Qed.

(** X7: against the database, under a host that passes values as
    parameters, a guarded call is allowed exactly when every stored row that
    satisfies the row-locating condition has a timestamp within 5
    microseconds of the one the client sent (so also when no row satisfies
    it); otherwise it fails with the conflict error and the wrapped resolver
    is not called.  Either way the verification query is the one query
    sent. *)
Theorem allowed_iff_all_rows_within_window (timestampColumn : string)
    (db : Postgres.Database) (scope : Scope) (build : Build)
    (oldResolve : Resolver) (resolveParams : ResolveParams)
    (table : PgClass.t) (timestampAttribute : PgAttribute.t)
    (comparisons : list (PgAttribute.t * JsValue))
    (stored : list Postgres.StoredRow) :
  let within (row : Postgres.StoredRow) : Prop :=
    ∃ client version,
      js_get (input resolveParams) (inflection_column build timestampAttribute) =
        JsDatetime client ∧
      Postgres.column row (PgAttribute.name timestampAttribute) =
        JsDatetime version ∧
      version - 5 <= client <= version + 5 in
  let matched :=
    List.filter (Postgres.satisfies (columnValues comparisons)) stored in
  passes_parameters build ->
  pgClient (context resolveParams) = Postgres.connect db ->
  pgFieldIntrospection scope = Some table ->
  isRelevantMutation scope = true ->
  truthy (disableSafeUpdateAndDelete table) = false ->
  find_attribute timestampColumn (PgClass.attributes table) = Some timestampAttribute ->
  keyValues scope build (input resolveParams) = Normal comparisons ->
  comparisons ≠ [] ->
  db !! (PgNamespace.name (PgClass.namespace table), PgClass.name table) =
    Some stored ->
  ∃ sqlCheckQuery,
    getVerifyTimestampSqlQuery scope build (input resolveParams) timestampAttribute =
      Normal sqlCheckQuery ∧
    (Forall within matched ->
     resolve timestampColumn scope build oldResolve resolveParams =
     (oldResolve resolveParams,
      {| queries := [sql_compile sqlCheckQuery]; resolved := [resolveParams] |})) ∧
    (¬ Forall within matched ->
     resolve timestampColumn scope build oldResolve resolveParams =
     (Throw (JsError "Mutation blocked due to conflict."),
      {| queries := [sql_compile sqlCheckQuery]; resolved := [] |})).
Proof.
  intros within matched Hvalues Hclient Htable Hrel Htag Hfind Hkeys Hne Hstored.
  destruct (resolve_against_database timestampColumn db scope build oldResolve
              resolveParams table timestampAttribute comparisons stored
              Hvalues Hclient Htable Hrel Htag Hfind Hkeys Hne Hstored)
    as (q & st & Hq & Hlower & Hupper & ->).
  exists q. split; [done|]. fold matched.
  assert (∀ row,
    truthy (Postgres.ok_of
              (js_get (input resolveParams)
                 (inflection_column build timestampAttribute)) st row) = true ↔
    within row) as Hverdict.
  { intros row. unfold Postgres.ok_of at 1. rewrite truthy_to_js.
    apply (verdict_true _ st row _ Hlower Hupper). }
  destruct (forallb _ matched) eqn:Hall.
  - split; [done|]. intros Hnot. exfalso. apply Hnot.
    apply Forall_forall. intros row Hin%list_elem_of_In.
    apply Hverdict. rewrite forallb_forall in Hall. by apply Hall.
  - split; [|done]. intros Hforall. exfalso.
    assert (forallb
      (fun row =>
         truthy (Postgres.ok_of
                   (js_get (input resolveParams)
                      (inflection_column build timestampAttribute)) st row))
      matched = true) as Htrue; [|congruence].
    apply forallb_forall. intros row Hin%list_elem_of_In.
    apply Hverdict. by eapply Forall_forall in Hforall.
Qed.

Lemma allowed_iff_all_rows_within_window_witness :
  resolve "updated_at" (Sample.mutation Sample.post false) Sample.build
    Sample.executor (Sample.byKey 7 1000009) =
  (Normal (JsString "updated"),
   {| queries := [sql_compile (Sample.verification 7 1000009)];
      resolved := [Sample.byKey 7 1000009] |}).
Proof.
  destruct (allowed_iff_all_rows_within_window "updated_at" Sample.db
    (Sample.mutation Sample.post false) Sample.build Sample.executor
    (Sample.byKey 7 1000009) Sample.post Sample.updated_at
    [(Sample.id_, JsNumber 7)]
    [Sample.stored 7 1000004; Sample.stored 8 2000000]
    (fun _ _ _ => eq_refl) eq_refl eq_refl eq_refl eq_refl eq_refl eq_refl
    ltac:(discriminate) eq_refl) as (q & Hq & Hallowed & _).
  injection Hq as <-. apply Hallowed.
  repeat constructor. exists 1000009, 1000004. by repeat split.
Defined.

(** X8: a stored row that satisfies the condition but has no timestamp, or a
    request whose version is null, can never pass: the comparison is unknown,
    [ok] is null, and a guarded call fails with the conflict error without
    calling the wrapped resolver. *)
Theorem null_version_blocks_mutation (timestampColumn : string)
    (db : Postgres.Database) (scope : Scope) (build : Build)
    (oldResolve : Resolver) (resolveParams : ResolveParams)
    (table : PgClass.t) (timestampAttribute : PgAttribute.t)
    (comparisons : list (PgAttribute.t * JsValue))
    (stored : list Postgres.StoredRow) (row : Postgres.StoredRow) :
  passes_parameters build ->
  pgClient (context resolveParams) = Postgres.connect db ->
  pgFieldIntrospection scope = Some table ->
  isRelevantMutation scope = true ->
  truthy (disableSafeUpdateAndDelete table) = false ->
  find_attribute timestampColumn (PgClass.attributes table) = Some timestampAttribute ->
  keyValues scope build (input resolveParams) = Normal comparisons ->
  comparisons ≠ [] ->
  db !! (PgNamespace.name (PgClass.namespace table), PgClass.name table) =
    Some stored ->
  row ∈ stored ->
  Postgres.satisfies (columnValues comparisons) row = true ->
  Postgres.is_null (Postgres.column row (PgAttribute.name timestampAttribute)) = true ∨
  Postgres.is_null
    (js_get (input resolveParams) (inflection_column build timestampAttribute)) = true ->
  ∃ sqlCheckQuery,
    getVerifyTimestampSqlQuery scope build (input resolveParams) timestampAttribute =
      Normal sqlCheckQuery ∧
    resolve timestampColumn scope build oldResolve resolveParams =
      (Throw (JsError "Mutation blocked due to conflict."),
       {| queries := [sql_compile sqlCheckQuery]; resolved := [] |}).
Proof.
  intros Hvalues Hclient Htable Hrel Htag Hfind Hkeys Hne Hstored Hrow Hsat Hnull.
  destruct (resolve_against_database timestampColumn db scope build oldResolve
              resolveParams table timestampAttribute comparisons stored
              Hvalues Hclient Htable Hrel Htag Hfind Hkeys Hne Hstored)
    as (q & st & Hq & Hlower & Hupper & ->).
  exists q. split; [done|].
  rewrite (forallb_refuted _ _ row); [done| |].
  - apply filter_In. split; [by apply list_elem_of_In | done].
  - apply not_true_is_false. unfold Postgres.ok_of. rewrite truthy_to_js.
    intros (c & v & Hc & Hv & _)%(verdict_true _ _ _ _ Hlower Hupper).
    rewrite Hc, Hv in Hnull. by destruct Hnull.
Qed.

Lemma null_version_blocks_mutation_witness :
  ∃ sqlCheckQuery,
    getVerifyTimestampSqlQuery (Sample.mutation Sample.post false) Sample.build
      (input (Cases.byKey (Postgres.connect Cases.legacy) 7 1000000))
      Sample.updated_at = Normal sqlCheckQuery ∧
    resolve "updated_at" (Sample.mutation Sample.post false) Sample.build
      Sample.executor (Cases.byKey (Postgres.connect Cases.legacy) 7 1000000) =
      (Throw (JsError "Mutation blocked due to conflict."),
       {| queries := [sql_compile sqlCheckQuery]; resolved := [] |}).
Proof.
  refine (null_version_blocks_mutation "updated_at" Cases.legacy
    (Sample.mutation Sample.post false) Sample.build Sample.executor
    (Cases.byKey (Postgres.connect Cases.legacy) 7 1000000)
    Sample.post Sample.updated_at [(Sample.id_, JsNumber 7)]
    [Cases.unstamped] Cases.unstamped
    (fun _ _ _ => eq_refl) eq_refl eq_refl eq_refl eq_refl eq_refl eq_refl
    _ eq_refl _ eq_refl _).
  - discriminate.
  - apply list_elem_of_In. left. reflexivity.
  - left. reflexivity.
Defined.

(** ** What is sent to the database *)

Lemma fst_paired {A B} (g : A -> B) (l : list A) :
  ((fun x => (x, g x)) <$> l).*1 = l.
Proof. induction l as [|x l IH]; [done|]. cbn. by f_equal. Qed.

(** The attributes compared depend on the scope only, not on the request. *)
Lemma keyValues_attributes (scope : Scope) (build : Build)
    (input input' : gmap string JsValue)
    (comparisons comparisons' : list (PgAttribute.t * JsValue)) :
  keyValues scope build input = Normal comparisons ->
  keyValues scope build input' = Normal comparisons' ->
  comparisons.*1 = comparisons'.*1.
Proof.
  unfold keyValues. destruct (isPgNodeMutation scope).
  - destruct (pgFieldIntrospection scope) as [table|]; [|discriminate].
    cbn [mbind completion_bind read_of].
    destruct (getTypeAndIdentifiersFromNodeId build (js_get input _))
      as [node|]; [|discriminate].
    destruct (getTypeAndIdentifiersFromNodeId build (js_get input' _))
      as [node'|]; [|discriminate].
    cbn [mbind completion_bind].
    do 2 (case_bool_decide; [discriminate|]).
    destruct (PgClass.primaryKeyConstraint table) as [primaryKey|];
      [|discriminate].
    cbn [fmap option_fmap option_map mbind completion_bind read_of].
    case_bool_decide as Hlen; [discriminate|].
    case_bool_decide as Hlen'; [discriminate|].
    intros [= <-] [= <-]. rewrite !fst_zip by lia. done.
  - destruct (pgFieldConstraint scope) as [constraint|]; [|discriminate].
    cbn [mbind completion_bind read_of].
    intros [= <-] [= <-]. by rewrite !fst_paired.
Qed.

(** X9: under a host that passes values as parameters, what the client sends
    never becomes part of the statement text: two requests through the same
    field compile to the same text, and each one's values array is the
    version it sent followed by its key values in key order. *)
Theorem client_values_travel_as_parameters (scope : Scope) (build : Build)
    (table : PgClass.t) (timestampAttribute : PgAttribute.t)
    (input input' : gmap string JsValue)
    (comparisons comparisons' : list (PgAttribute.t * JsValue)) :
  passes_parameters build ->
  pgFieldIntrospection scope = Some table ->
  keyValues scope build input = Normal comparisons ->
  keyValues scope build input' = Normal comparisons' ->
  ∃ sqlCheckQuery sqlCheckQuery',
    getVerifyTimestampSqlQuery scope build input timestampAttribute =
      Normal sqlCheckQuery ∧
    getVerifyTimestampSqlQuery scope build input' timestampAttribute =
      Normal sqlCheckQuery' ∧
    text (sql_compile sqlCheckQuery) = text (sql_compile sqlCheckQuery') ∧
    values (sql_compile sqlCheckQuery) =
      js_get input (inflection_column build timestampAttribute) :: comparisons.*2 ∧
    values (sql_compile sqlCheckQuery') =
      js_get input' (inflection_column build timestampAttribute) :: comparisons'.*2.
Proof.
  intros Hvalues Htable Hkeys Hkeys'.
  destruct (verify_query_compiled build Hvalues scope input table
              timestampAttribute comparisons Htable Hkeys) as (q & Hq & Hcompiled).
  destruct (verify_query_compiled build Hvalues scope input' table
              timestampAttribute comparisons' Htable Hkeys') as (q' & Hq' & Hcompiled').
  exists q, q'. do 2 (split; [done|]).
  rewrite Hcompiled, Hcompiled'. cbn [text values].
  split; [|done]. f_equal.
  rewrite !list_fmap_compose.
  by rewrite (keyValues_attributes scope build input input' _ _ Hkeys Hkeys').
Qed.

Lemma client_values_travel_as_parameters_witness :
  text (sql_compile (Sample.verification 7 1000000)) =
    text (sql_compile (Sample.verification 8 2000000)) ∧
  values (sql_compile (Sample.verification 7 1000000)) =
    [JsDatetime 1000000; JsNumber 7].
Proof.
  destruct (client_values_travel_as_parameters
    (Sample.mutation Sample.post false) Sample.build Sample.post Sample.updated_at
    (input (Sample.byKey 7 1000000)) (input (Sample.byKey 8 2000000))
    [(Sample.id_, JsNumber 7)] [(Sample.id_, JsNumber 8)]
    (fun _ _ _ => eq_refl) eq_refl eq_refl eq_refl)
    as (q & q' & Hq & Hq' & Htext & Hvalues & _).
  injection Hq as <-. injection Hq' as <-. split; [exact Htext | exact Hvalues].
Defined.

(** ** The two ways to name a row *)

Lemma imap_lookup_fmap {A B C} (f : A -> B -> C) (g : A -> B) (d : B) (l : list A) :
  imap (fun idx x => f x (default d ((g <$> l) !! idx))) l =
  (fun x => f x (g x)) <$> l.
Proof.
  rewrite (imap_lookup_zip f d l (g <$> l)) by (by rewrite length_fmap).
  induction l as [|x l IH]; [done|]. cbn. by f_equal.
Qed.

(** X10: a node identifier of the table's type whose values are the key
    values of a by-key request names the same rows: when the key of the
    by-key field is the table's primary key, both builders return the same
    condition, and with the same version sent both fields build the same
    verification query. *)
Theorem node_and_key_conditions_agree (byNode byKey : Scope) (build : Build)
    (table : PgClass.t) (primaryKey : PgConstraint.t) (node : NodeId)
    (nodeInput keyInput : gmap string JsValue) (timestampAttribute : PgAttribute.t) :
  isPgNodeMutation byNode = true ->
  isPgNodeMutation byKey = false ->
  pgFieldIntrospection byNode = Some table ->
  pgFieldIntrospection byKey = Some table ->
  PgClass.primaryKeyConstraint table = Some primaryKey ->
  pgFieldConstraint byKey = Some primaryKey ->
  getTypeAndIdentifiersFromNodeId build (js_get nodeInput (nodeIdFieldName build)) =
    Normal node ->
  Type_ node =
    pgGetGqlTypeByTypeIdAndModifier build (PgType.id (PgClass.type table)) None ->
  identifiers node =
    (fun key => js_get keyInput (inflection_column build key)) <$>
      PgConstraint.keyAttributes primaryKey ->
  getNodeMutationCondition byNode build nodeInput =
    getMutationCondition byKey build keyInput ∧
  (js_get nodeInput (inflection_column build timestampAttribute) =
     js_get keyInput (inflection_column build timestampAttribute) ->
   getVerifyTimestampSqlQuery byNode build nodeInput timestampAttribute =
     getVerifyTimestampSqlQuery byKey build keyInput timestampAttribute).
Proof.
  intros HbyNode HbyKey Htable Htable' Hprimary Hkey Hdecode Htype Hids.
  assert (getNodeMutationCondition byNode build nodeInput =
          getMutationCondition byKey build keyInput) as Hcond.
  { unfold getNodeMutationCondition, getMutationCondition.
    rewrite Htable, Hkey. cbn -[sql_fragment sql_join].
    rewrite Hdecode. cbn -[sql_fragment sql_join].
    rewrite bool_decide_false by (intros ?; contradiction).
    rewrite Hprimary. cbn -[sql_fragment sql_join].
    rewrite bool_decide_false by (by rewrite Hids, length_fmap; intros ?).
    rewrite Hids.
    by rewrite (imap_lookup_fmap
      (fun key val => sql_fragment [EmptyString; " = "; EmptyString]
         [sql_identifier [PgAttribute.name key];
          gql2pg build val (PgAttribute.type key) (PgAttribute.typeModifier key)])). }
  split; [done|]. intros Hversion.
  unfold getVerifyTimestampSqlQuery.
  by rewrite HbyNode, HbyKey, Hcond, Htable, Htable', Hversion.
Qed.

Lemma node_and_key_conditions_agree_witness :
  getVerifyTimestampSqlQuery (Sample.mutation Sample.post true) Sample.build
    (input (Sample.byNodeId "WyJwb3N0cyIsN10=" 1000000)) Sample.updated_at =
  getVerifyTimestampSqlQuery (Sample.mutation Sample.post false) Sample.build
    (input (Sample.byKey 7 1000000)) Sample.updated_at.
Proof.
  exact (proj2 (node_and_key_conditions_agree
    (Sample.mutation Sample.post true) (Sample.mutation Sample.post false)
    Sample.build Sample.post Sample.key
    {| Type_ := Some Sample.Post; identifiers := [JsNumber 7] |}
    (input (Sample.byNodeId "WyJwb3N0cyIsN10=" 1000000))
    (input (Sample.byKey 7 1000000)) Sample.updated_at
    eq_refl eq_refl eq_refl eq_refl eq_refl eq_refl eq_refl eq_refl eq_refl)
    eq_refl).
Defined.

(** ** What the verification depends on *)

(** X11: the verification query looks at nothing in the request but the
    identifying fields and the version: two requests through the same field
    that agree on the node identifier (node mode) or on every key field
    (key mode), and on the version field, build the same query, whatever
    else they carry. *)
Theorem verification_ignores_other_fields (scope : Scope) (build : Build)
    (timestampAttribute : PgAttribute.t) (input input' : gmap string JsValue) :
  (if isPgNodeMutation scope
   then js_get input (nodeIdFieldName build) = js_get input' (nodeIdFieldName build)
   else ∀ constraint,
          pgFieldConstraint scope = Some constraint ->
          Forall (fun key =>
                    js_get input (inflection_column build key) =
                    js_get input' (inflection_column build key))
            (PgConstraint.keyAttributes constraint)) ->
  js_get input (inflection_column build timestampAttribute) =
    js_get input' (inflection_column build timestampAttribute) ->
  getVerifyTimestampSqlQuery scope build input timestampAttribute =
  getVerifyTimestampSqlQuery scope build input' timestampAttribute.
Proof.
  intros Hsame Hversion. unfold getVerifyTimestampSqlQuery. rewrite Hversion.
  destruct (isPgNodeMutation scope).
  - unfold getNodeMutationCondition. by rewrite Hsame.
  - unfold getMutationCondition.
    destruct (pgFieldConstraint scope) as [constraint|]; [|done].
    specialize (Hsame constraint eq_refl).
    assert (((fun key =>
               sql_fragment [EmptyString; " = "; EmptyString]
                 [sql_identifier [PgAttribute.name key];
                  gql2pg build (js_get input (inflection_column build key))
                    (PgAttribute.type key) (PgAttribute.typeModifier key)]) <$>
             PgConstraint.keyAttributes constraint) =
            ((fun key =>
               sql_fragment [EmptyString; " = "; EmptyString]
                 [sql_identifier [PgAttribute.name key];
                  gql2pg build (js_get input' (inflection_column build key))
                    (PgAttribute.type key) (PgAttribute.typeModifier key)]) <$>
             PgConstraint.keyAttributes constraint)) as Hitems.
    { apply list_fmap_ext. intros i key Hkey.
      rewrite Forall_forall in Hsame.
      by rewrite (Hsame key (list_elem_of_lookup_2 _ _ _ Hkey)). }
    cbn -[sql_fragment sql_join sql_query]. by rewrite Hitems.
Qed.

Lemma verification_ignores_other_fields_witness :
  getVerifyTimestampSqlQuery (Sample.mutation Sample.post false) Sample.build
    (<["postPatch" := JsString "title"]> (input (Sample.byKey 7 1000000)))
    Sample.updated_at =
  getVerifyTimestampSqlQuery (Sample.mutation Sample.post false) Sample.build
    (input (Sample.byKey 7 1000000)) Sample.updated_at.
Proof.
  refine (verification_ignores_other_fields (Sample.mutation Sample.post false)
    Sample.build Sample.updated_at
    (<["postPatch" := JsString "title"]> (input (Sample.byKey 7 1000000)))
    (input (Sample.byKey 7 1000000)) _ _).
  - intros constraint [= <-]. repeat constructor.
  - vm_compute. reflexivity.
Defined.

(** X12: update and delete mutations are verified alike: the outcome of a
    call depends on the scope through its relevance, its tables, its key and
    its mode only. *)
Theorem update_and_delete_verified_alike (timestampColumn : string)
    (scope scope' : Scope) (build : Build) (oldResolve : Resolver)
    (resolveParams : ResolveParams) :
  isRelevantMutation scope = isRelevantMutation scope' ->
  pgIntrospection scope = pgIntrospection scope' ->
  pgFieldIntrospection scope = pgFieldIntrospection scope' ->
  pgFieldConstraint scope = pgFieldConstraint scope' ->
  isPgNodeMutation scope = isPgNodeMutation scope' ->
  resolve timestampColumn scope build oldResolve resolveParams =
  resolve timestampColumn scope' build oldResolve resolveParams.
Proof.
  intros Hrel Hintro Hfield Hkey Hmode.
  assert (∀ input timestampAttribute,
    getVerifyTimestampSqlQuery scope build input timestampAttribute =
    getVerifyTimestampSqlQuery scope' build input timestampAttribute) as Hquery.
  { intros input a.
    unfold getVerifyTimestampSqlQuery, getNodeMutationCondition,
      getMutationCondition.
    by rewrite Hmode, Hfield, Hkey. }
  unfold resolve, makeVerifyTimestampPlugin, makeWrapResolversPlugin,
    VerifyTimestampFilter, omit.
  rewrite Hrel, Hintro, Hfield.
  destruct (isRelevantMutation scope'); [|done].
  destruct (js_or (pgFieldIntrospection scope') (pgIntrospection scope'))
    as [subject|]; [|done].
  cbn [mbind completion_bind read_of].
  destruct (truthy (disableSafeUpdateAndDelete subject)); [done|].
  cbn [negb mbind completion_bind]. unfold VerifyTimestampWrapper.
  cbv beta iota. rewrite Hfield.
  destruct (pgFieldIntrospection scope') as [table|]; [|done].
  unfold mbind, M_bind, lift. cbn [read_of].
  destruct (find_attribute timestampColumn (PgClass.attributes table)); [|done].
  unfold verifyTimestamp, mbind, M_bind, lift. by rewrite Hquery.
Qed.

Lemma update_and_delete_verified_alike_witness :
  resolve "updated_at" (Sample.mutation Sample.post false) Sample.build
    Sample.executor (Sample.byKey 7 1000000) =
  resolve "updated_at" Cases.deletePost Sample.build
    Sample.executor (Sample.byKey 7 1000000).
Proof.
  exact (update_and_delete_verified_alike "updated_at"
    (Sample.mutation Sample.post false) Cases.deletePost Sample.build
    Sample.executor (Sample.byKey 7 1000000)
    eq_refl eq_refl eq_refl eq_refl eq_refl).
Defined.

(** X13: on the update (delete) input type of a table that is not opted
    out, when [timestampAttribute] is the first attribute of the table that
    is named [timestampColumn], the hook returns [build.extend] of the
    original fields and one field: named by [inflection.column] of that
    attribute, of type non-null [Datetime], described as the value of the
    existing row to be updated (deleted).  Fields of an input type of the
    table that is neither are returned unchanged. *)
Theorem timestamp_field_added (timestampColumn : string) (fields : Fields)
    (build : Build) (ctx : HookContext.t) (table : PgClass.t) :
  let scope := HookContext.scope ctx in
  let added (timestampAttribute : PgAttribute.t) (participle : string) : Fields :=
    let timestampField := inflection_column build timestampAttribute in
    {[ timestampField :=
         HookContext.fieldWithHooks ctx timestampField
           {| type := GraphQLNonNull (getTypeByName build "Datetime");
              description :=
                "The " +:+ dquote +:+ timestampField +:+ dquote +:+
                " value of the existing row to be " +:+ participle |} ]} in
  pgIntrospection scope = Some table ->
  (∀ before timestampAttribute after,
     pgFieldIntrospection scope = None ->
     truthy (disableSafeUpdateAndDelete table) = false ->
     PgClass.attributes table = before ++ timestampAttribute :: after ->
     Forall (fun a => PgAttribute.name a ≠ timestampColumn) before ->
     PgAttribute.name timestampAttribute = timestampColumn ->
     (isPgUpdateInputType scope = true ->
      AddTimestampFieldPlugin timestampColumn fields build ctx =
      extend build fields (added timestampAttribute "updated")) ∧
     (isPgUpdateInputType scope = false ->
      isPgDeleteInputType scope = true ->
      AddTimestampFieldPlugin timestampColumn fields build ctx =
      extend build fields (added timestampAttribute "deleted"))) ∧
  (isPgUpdateInputType scope = false ->
   isPgDeleteInputType scope = false ->
   AddTimestampFieldPlugin timestampColumn fields build ctx = Normal fields).
Proof.
  intros scope added Hintro. unfold AddTimestampFieldPlugin. fold scope.
  rewrite Hintro; simpl. split.
  - intros before a after Hfield Htag Hattributes Hbefore Hname.
    assert (omit scope = Normal false) as Homit.
    { unfold omit. by rewrite Hfield, Hintro; simpl; rewrite Htag. }
    rewrite Hattributes, (find_attribute_first _ _ _ _ Hbefore Hname).
    split.
    + intros ->. by rewrite Homit.
    + intros -> ->. by rewrite Homit.
  - by intros -> ->.
Qed.

Lemma timestamp_field_added_witness :
  AddTimestampFieldPlugin "updated_at" Sample.fields Sample.build
    (Sample.hook (Sample.inputType Sample.post true)) =
  Normal (<["updatedAt" :=
            {| type := GraphQLNonNull (GraphQLNamed "Datetime");
               description :=
                 "The " +:+ dquote +:+ "updatedAt" +:+ dquote +:+
                 " value of the existing row to be updated" |}]> Sample.fields).
Proof.
  pose proof (timestamp_field_added "updated_at" Sample.fields Sample.build
    (Sample.hook (Sample.inputType Sample.post true)) Sample.post eq_refl) as [H _].
  assert (Forall (fun a => PgAttribute.name a ≠ "updated_at") [Sample.id_])
    as Hbefore by (by repeat constructor).
  destruct (H [Sample.id_] Sample.updated_at [] eq_refl eq_refl eq_refl Hbefore eq_refl)
    as [Hupdate _].
  rewrite (Hupdate eq_refl). reflexivity.
Defined.
